(** * Research-query pipeline of [backend.py]

    A shallow embedding of [GeminiService], [SearchService] and
    [ResearchAgent] (the three service classes of [backend.py]) and the
    properties of the research pipeline they implement.

    Conventions of the embedding.
    - A Python [str] is a [string]; each character stands for one code
      point below 256.
    - A value decoded from JSON, or handled dynamically by the code, is a
      [pyval].  JSON numbers with a fractional part or an exponent are
      outside the model: numbers are integers.
    - Code that can raise returns a [result]; code that also talks to the
      language model, to the search provider or to the console runs in the
      monad [M], which threads the trace of the calls made so far.
    - [except Exception] is modelled as catching every [exn]; interpreter
      exits and keyboard interrupts are outside the model. *)

From Stdlib Require Import String Ascii List ZArith Lia Bool Arith.
From Stdlib Require Import DecimalString.
Import ListNotations.
Open Scope string_scope.
Set Warnings "-register-all".

(** ** Python values *)

Inductive pyval : Type :=
| PNone
| PBool (b : bool)
| PInt (z : Z)
| PStr (s : string)
| PList (l : list pyval)
| PDict (kv : list (string * pyval)).

(** The name [type(v).__name__] used by the interpreter's messages. *)
Definition type_name (v : pyval) : string :=
  match v with
  | PNone => "NoneType"
  | PBool _ => "bool"
  | PInt _ => "int"
  | PStr _ => "str"
  | PList _ => "list"
  | PDict _ => "dict"
  end.

(** ** Exceptions *)

Inductive exn_class : Type :=
| TypeError | AttributeError | IndexError | ValueError | ExternalError.

(** [exn_msg] is what [str(e)] returns. [ExternalError] stands for whatever
    a client library raises (network, HTTP status, quota, ...). *)
Record exn : Type := Exn { exn_cls : exn_class; exn_msg : string }.

Inductive result (A : Type) : Type :=
| Ok (a : A)
| Raise (e : exn).
Arguments Ok {A} a.
Arguments Raise {A} e.

Definition rbind {A B} (r : result A) (k : A -> result B) : result B :=
  match r with
  | Ok a => k a
  | Raise e => Raise e
  end.

(** ** Strings the way Python handles them *)

Definition nl : string := String "010"%char EmptyString.
Definition dq : string := String "034"%char EmptyString.
Definition sq : string := String "039"%char EmptyString.

(** [str.isspace] on one character, for code points below 256. *)
Definition isspace (c : ascii) : bool :=
  let n := nat_of_ascii c in
  (((9 <=? n) && (n <=? 13)) || ((28 <=? n) && (n <=? 32))
   || (n =? 133) || (n =? 160))%nat.

Fixpoint lstrip (s : string) : string :=
  match s with
  | EmptyString => EmptyString
  | String c r => if isspace c then lstrip r else s
  end.

Fixpoint rstrip (s : string) : string :=
  match s with
  | EmptyString => EmptyString
  | String c r =>
      match rstrip r with
      | EmptyString => if isspace c then EmptyString else String c EmptyString
      | r' => String c r'
      end
  end.

(** [s.strip()] *)
Definition strip (s : string) : string := rstrip (lstrip s).

(** [s.startswith(p)] *)
Definition startswith (p s : string) : bool := prefix p s.

(** [s[n:]] for a literal [n >= 0]. *)
Fixpoint str_from (n : nat) (s : string) : string :=
  match n, s with
  | O, _ => s
  | S _, EmptyString => EmptyString
  | S k, String _ r => str_from k r
  end.

(** [s[:n]] for a literal [n >= 0]. *)
Fixpoint str_to (n : nat) (s : string) : string :=
  match n, s with
  | O, _ => EmptyString
  | S _, EmptyString => EmptyString
  | S k, String c r => String c (str_to k r)
  end.

(** [s.split(sep)] for a non-empty [sep]: [skip] counts the characters of a
    separator just matched that are still to be passed over, [cur] is the
    piece being read. *)
Fixpoint split_go (sep : string) (skip : nat) (cur s : string) : list string :=
  match s with
  | EmptyString => [cur]
  | String c r =>
      match skip with
      | S k => split_go sep k cur r
      | O =>
          if prefix sep s
          then cur :: split_go sep (String.length sep - 1) EmptyString r
          else split_go sep 0 (cur ++ String c EmptyString) r
      end
  end.

Definition split (sep s : string) : list string := split_go sep 0 EmptyString s.

(** [xs[i]] on a list. *)
Definition index {A} (xs : list A) (i : nat) : result A :=
  match nth_error xs i with
  | Some x => Ok x
  | None => Raise (Exn IndexError "list index out of range")
  end.

(** [str(n)] for a natural number and for an integer. *)
Definition str_nat (n : nat) : string := NilZero.string_of_uint (Nat.to_uint n).
Definition str_int (z : Z) : string := NilZero.string_of_int (Z.to_int z).

(** The characters of a string, each as a one-character string. *)
Fixpoint chars (s : string) : list string :=
  match s with
  | EmptyString => []
  | String c r => String c EmptyString :: chars r
  end.

(** ** Dynamic operations on values *)

(** [bool(v)] *)
Definition truthy (v : pyval) : bool :=
  match v with
  | PNone => false
  | PBool b => b
  | PInt z => negb (z =? 0)%Z
  | PStr s => negb (String.length s =? 0)%nat
  | PList l => negb (List.length l =? 0)%nat
  | PDict kv => negb (List.length kv =? 0)%nat
  end.

(** [v[:n]] for a literal [n >= 0]. *)
Definition slice_to (n : nat) (v : pyval) : result pyval :=
  match v with
  | PList l => Ok (PList (firstn n l))
  | PStr s => Ok (PStr (str_to n s))
  | PDict _ => Raise (Exn TypeError ("unhashable type: " ++ sq ++ "slice" ++ sq))
  | _ => Raise (Exn TypeError
                  (sq ++ type_name v ++ sq ++ " object is not subscriptable"))
  end.

(** [iter(v)], fully unrolled. *)
Definition py_iter (v : pyval) : result (list pyval) :=
  match v with
  | PList l => Ok l
  | PStr s => Ok (map PStr (chars s))
  | PDict kv => Ok (map (fun p => PStr (fst p)) kv)
  | _ => Raise (Exn TypeError
                  (sq ++ type_name v ++ sq ++ " object is not iterable"))
  end.

(** [d.get(k, default)] on the entries of a dict. *)
Fixpoint dict_get (kv : list (string * pyval)) (k : string) (default : pyval)
  : pyval :=
  match kv with
  | [] => default
  | (k', v) :: rest => if String.eqb k' k then v else dict_get rest k default
  end.

(** [v.get(k, default)]: only a dict has the attribute. *)
Definition py_get (v : pyval) (k : string) (default : pyval) : result pyval :=
  match v with
  | PDict kv => Ok (dict_get kv k default)
  | _ => Raise (Exn AttributeError
                  (sq ++ type_name v ++ sq ++ " object has no attribute "
                   ++ sq ++ "get" ++ sq))
  end.

(** What a set stores for a hashable value: values that compare equal
    ([True == 1], [False == 0]) get the same key. *)
Inductive hkey : Type :=
| KNone
| KNum (z : Z)
| KStr (s : string).

Definition hkey_eqb (a b : hkey) : bool :=
  match a, b with
  | KNone, KNone => true
  | KNum x, KNum y => (x =? y)%Z
  | KStr x, KStr y => String.eqb x y
  | _, _ => false
  end.

(** [hash(v)], which lists and dicts refuse. *)
Definition py_hash (v : pyval) : result hkey :=
  match v with
  | PNone => Ok KNone
  | PBool b => Ok (KNum (if b then 1 else 0))
  | PInt z => Ok (KNum z)
  | PStr s => Ok (KStr s)
  | _ => Raise (Exn TypeError
                  ("unhashable type: " ++ sq ++ type_name v ++ sq))
  end.

(** A set of hashable values, as the list of their keys. *)
Definition pyset : Type := list hkey.

Definition set_mem (k : hkey) (s : pyset) : bool := existsb (hkey_eqb k) s.

(** [v in s] *)
Definition set_contains (v : pyval) (s : pyset) : result bool :=
  rbind (py_hash v) (fun k => Ok (set_mem k s)).

(** [s.add(v)] *)
Definition set_add (v : pyval) (s : pyset) : result pyset :=
  rbind (py_hash v) (fun k => Ok (if set_mem k s then s else k :: s)).


(** ** Search results and outcomes *)

(** The dict built by [SearchService.search] for one organic result: its five
    keys are fixed, its values are whatever the provider's payload held. *)
Record SearchResult : Type := mkResult {
  title : pyval;
  link : pyval;
  snippet : pyval;
  source : pyval;
  date : pyval
}.

(** The dict returned by [ResearchAgent.research_query]. *)
Record ResearchOutcome : Type := mkOutcome {
  response : string;
  sources : list SearchResult;
  search_queries_used : pyval
}.

(** The [params] dict of one search request. *)
Record search_params : Type := mkParams {
  param_q : pyval;
  param_api_key : pyval;
  param_engine : string;
  param_num : Z;
  param_safe : string
}.

(** ** Effects *)

Inductive event : Type :=
| Generate (prompt : string)
| HttpGet (url : string) (params : search_params)
| Stdout (line : string).

Definition trace : Type := list event.

(** A computation reads the trace of the calls made before it and returns
    its result with the trace extended by the calls it made. *)
Definition M (A : Type) : Type := trace -> result A * trace.

Definition ret {A} (a : A) : M A := fun t => (Ok a, t).

Definition bind {A B} (c : M A) (k : A -> M B) : M B :=
  fun t =>
    match c t with
    | (Ok a, t') => k a t'
    | (Raise e, t') => (Raise e, t')
    end.

Definition lift {A} (r : result A) : M A := fun t => (r, t).

Definition emit (e : event) : M unit := fun t => (Ok tt, (t ++ [e])%list).

(** [try: c except Exception as e: h e] *)
Definition try_except {A} (c : M A) (h : exn -> M A) : M A :=
  fun t =>
    match c t with
    | (Ok a, t') => (Ok a, t')
    | (Raise e, t') => h e t'
    end.

Declare Scope py_scope.
Delimit Scope py_scope with py.
Notation "x <- c ;; k" := (bind c (fun x => k))
  (at level 61, c at next level, right associativity) : py_scope.
Notation "c ;; k" := (bind c (fun _ => k))
  (at level 61, right associativity) : py_scope.
Open Scope py_scope.

(** ** Prompts and fixed texts *)

Definition ind : string := "        ".

(** A triple-quoted block: a newline before every line. *)
Definition block (lines : list string) : string :=
  String.concat nl (EmptyString :: lines).

Definition expansion_prompt (user_query : string) : string :=
  block
    [ ind ++ "As a research assistant, analyze this user query and generate 3-5 optimized search queries ";
      ind ++ "that would help find the most relevant academic articles, reports, and authoritative sources.";
      ind;
      ind ++ "User Query: " ++ dq ++ user_query ++ dq;
      ind;
      ind ++ "Generate search queries that are:";
      ind ++ "1. Specific and targeted for academic/professional research";
      ind ++ "2. Include relevant keywords and synonyms";
      ind ++ "3. Suitable for finding recent articles, reports, and studies";
      ind;
      ind ++ "Format as a JSON array of strings:";
      ind ++ "[" ++ dq ++ "query1" ++ dq ++ ", " ++ dq ++ "query2" ++ dq
          ++ ", " ++ dq ++ "query3" ++ dq ++ "]";
      ind ].

(** The answer of [synthesize_research_response] when the model fails. *)
Definition synthesis_fallback (user_query : string) : string :=
  "I found several relevant sources for your query about '" ++ user_query
  ++ "'. Please review the sources below for detailed information.".

(** The answer of [research_query] when its own handler runs. *)
Definition apology (e : exn) : string :=
  "I apologize, but I encountered an error while researching your query: "
  ++ exn_msg e ++ ". Please try again or rephrase your question.".

Definition base_url : string := "https://serpapi.com/search".

(** The loop of [SearchService.search]: one dict per organic result, with the
    placeholders of the source for missing keys. *)
Definition organic_entry (item : pyval) : result SearchResult :=
  rbind (py_get item "title" (PStr "No Title")) (fun t =>
  rbind (py_get item "link" (PStr "")) (fun l =>
  rbind (py_get item "snippet" (PStr "No description available")) (fun s =>
  rbind (py_get item "displayed_link" (PStr "")) (fun d =>
  rbind (py_get item "date" (PStr "")) (fun dt =>
  Ok (mkResult t l s d dt)))))).

Fixpoint organic_loop (items : list pyval) (results : list SearchResult)
  : result (list SearchResult) :=
  match items with
  | [] => Ok results
  | item :: rest =>
      rbind (organic_entry item) (fun r => organic_loop rest (results ++ [r])%list)
  end.

(** The loop that removes duplicates in [research_query]:
    [if result['link'] not in seen_urls and result['link']]. *)
Fixpoint dedup_loop (all_results unique_results : list SearchResult)
  (seen_urls : pyset) : result (list SearchResult) :=
  match all_results with
  | [] => Ok unique_results
  | r :: rest =>
      rbind (set_contains (link r) seen_urls) (fun seen =>
        if negb seen && truthy (link r)
        then rbind (set_add (link r) seen_urls) (fun seen_urls' =>
               dedup_loop rest (unique_results ++ [r])%list seen_urls')
        else dedup_loop rest unique_results seen_urls)
  end.

(** Lines 451-456 of [research_query]: the loop started with an empty list
    and an empty set. *)
Definition deduplicate (all_results : list SearchResult)
  : result (list SearchResult) :=
  dedup_loop all_results [] [].

(** [results[:cap]] for a literal [cap >= 0]. *)
Definition limit (cap : nat) (results : list SearchResult) : list SearchResult :=
  firstn cap results.

Section Services.

(** [os.environ.get('SERPAPI_KEY')]: a string, or [None]. *)
Variable api_key : pyval.

(** The language model: the [text] of the response to a prompt, given the
    calls made so far, or the exception raised by the call or by [text]. *)
Variable model : trace -> string -> result string.

(** The search provider: the decoded body of the response to a request,
    given the calls made so far, or the exception raised by
    [requests.get], [raise_for_status] or [response.json]. *)
Variable provider : trace -> search_params -> result pyval.

(** [json.loads] *)
Variable json_loads : string -> result pyval.

(** [repr] of a list or of a dict. *)
Variable py_repr : pyval -> string.

(** What an f-string writes for a value. *)
Definition py_str (v : pyval) : string :=
  match v with
  | PNone => "None"
  | PBool true => "True"
  | PBool false => "False"
  | PInt z => str_int z
  | PStr s => s
  | _ => py_repr v
  end.

Definition generate_content (prompt : string) : M string :=
  fun t => (model t prompt, (t ++ [Generate prompt])%list).

Definition requests_get_json (params : search_params) : M pyval :=
  fun t => (provider t params, (t ++ [HttpGet base_url params])%list).

(** *** GeminiService *)

Definition strip_fence (queries_text : string) : result string :=
  if startswith "```" queries_text
  then rbind (index (split "```" queries_text) 1) (fun piece =>
         let queries_text := strip piece in
         if startswith "json" queries_text
         then Ok (strip (str_from 4 queries_text))
         else Ok queries_text)
  else Ok queries_text.

(** What the [try] of [generate_search_queries] computes from the model's
    reply. *)
Definition decode_reply (reply : result string) : result pyval :=
  rbind reply (fun text =>
  rbind (strip_fence (strip text)) (fun queries_text =>
  rbind (json_loads queries_text) (fun queries =>
  slice_to 5 queries))).

(** The value [generate_search_queries] returns for a reply. *)
Definition queries_of (user_query : string) (reply : result string) : pyval :=
  match decode_reply reply with
  | Ok queries => queries
  | Raise _ => PList [PStr user_query]
  end.

Definition generate_search_queries (user_query : string) : M pyval :=
  let prompt := expansion_prompt user_query in
  try_except
    (text <- generate_content prompt ;;
     queries_text <- lift (strip_fence (strip text)) ;;
     queries <- lift (json_loads queries_text) ;;
     lift (slice_to 5 queries))
    (fun _ => ret (PList [PStr user_query])).

Definition source_entry (i : nat) (r : SearchResult) : string :=
  str_nat i ++ ". " ++ py_str (title r) ++ nl
  ++ "   " ++ py_str (snippet r) ++ nl
  ++ "   URL: " ++ py_str (link r) ++ nl ++ nl.

(** [for i, result in enumerate(results, i): sources_text += ...] *)
Fixpoint sources_loop (i : nat) (results : list SearchResult)
  (sources_text : string) : string :=
  match results with
  | [] => sources_text
  | r :: rest => sources_loop (S i) rest (sources_text ++ source_entry i r)
  end.

Definition synthesis_prompt (user_query : string)
  (search_results : list SearchResult) : string :=
  let sources_text := sources_loop 1 (firstn 10 search_results) EmptyString in
  block
    [ ind ++ "As a research assistant helping writers and researchers, synthesize the following search results ";
      ind ++ "into a comprehensive, well-structured response for the user's query.";
      ind;
      ind ++ "User Query: " ++ dq ++ user_query ++ dq;
      ind;
      ind ++ "Search Results:";
      ind ++ sources_text;
      ind;
      ind ++ "Instructions:";
      ind ++ "1. Provide a clear, informative response that directly addresses the user's query";
      ind ++ "2. Organize information logically with clear sections if needed";
      ind ++ "3. Highlight key findings, trends, or insights from the sources";
      ind ++ "4. Be objective and cite-focused (don't include actual citations, just synthesize)";
      ind ++ "5. End with a brief summary of the most valuable resources found";
      ind ++ "6. Keep the response research-focused and professional";
      ind ++ "7. If the query is about recent events or developments, emphasize the most current information";
      ind;
      ind ++ "Write a comprehensive response (200-400 words):";
      ind ].

Definition synthesize_research_response (user_query : string)
  (search_results : list SearchResult) : M string :=
  let prompt := synthesis_prompt user_query search_results in
  try_except
    (text <- generate_content prompt ;; ret (strip text))
    (fun _ => ret (synthesis_fallback user_query)).

(** *** SearchService *)

Definition search (query : pyval) (num_results : Z) : M (list SearchResult) :=
  let params := mkParams query api_key "google" num_results "active" in
  try_except
    (data <- requests_get_json params ;;
     organic_results <- lift (py_get data "organic_results" (PList [])) ;;
     items <- lift (py_iter organic_results) ;;
     lift (organic_loop items []))
    (fun e => emit (Stdout ("Search error: " ++ exn_msg e)) ;; ret []).

(** What the [try] of [search] computes from the decoded payload. *)
Definition parse_payload (data : pyval) : result (list SearchResult) :=
  rbind (py_get data "organic_results" (PList [])) (fun organic_results =>
  rbind (py_iter organic_results) (fun items =>
  organic_loop items [])).

(** The request [search] sends for a query. *)
Definition request_for (query : pyval) (num_results : Z) : search_params :=
  mkParams query api_key "google" num_results "active".

(** The list [search] returns for a reply of the provider. *)
Definition results_of (reply : result pyval) : list SearchResult :=
  match rbind reply parse_payload with
  | Ok results => results
  | Raise _ => []
  end.

(** *** ResearchAgent *)

(** [for query in search_queries: all_results.extend(search(query, 8))] *)
Fixpoint search_loop (queries : list pyval) (all_results : list SearchResult)
  : M (list SearchResult) :=
  match queries with
  | [] => ret all_results
  | query :: rest =>
      results <- search query 8 ;;
      search_loop rest (all_results ++ results)%list
  end.

(** The list each query contributes to [all_results], in query order. *)
Fixpoint per_query_results (queries : list pyval) (t : trace)
  : list (list SearchResult) :=
  match queries with
  | [] => []
  | query :: rest =>
      let '(r, t') := search query 8 t in
      match r with
      | Ok results => results
      | Raise _ => []
      end :: per_query_results rest t'
  end.

(** The body of the [try] of [research_query]. *)
Definition research_steps (user_query : string) : M ResearchOutcome :=
  search_queries <- generate_search_queries user_query ;;
  queries <- lift (py_iter search_queries) ;;
  all_results <- search_loop queries [] ;;
  unique_results <- lift (deduplicate all_results) ;;
  let unique_results := limit 15 unique_results in
  ai_response <- synthesize_research_response user_query unique_results ;;
  ret (mkOutcome ai_response unique_results search_queries).

Definition research_query (user_query : string) : M ResearchOutcome :=
  try_except
    (research_steps user_query)
    (fun e => ret (mkOutcome (apology e) [] (PList [PStr user_query]))).

End Services.

(** ** A decoder for a fragment of JSON

    [json_fragment] decodes the JSON texts built from [null], [true],
    [false], integers, strings without escapes, arrays and objects, the way
    [json.loads] does.  Numbers with a fraction or an exponent and strings
    with escapes are outside the fragment and are answered as undecodable;
    the examples below stay inside the fragment.  The exception's message is
    shortened to its first words. *)

Definition json_ws (c : ascii) : bool :=
  let n := nat_of_ascii c in
  ((n =? 32) || (n =? 9) || (n =? 10) || (n =? 13))%nat.

Fixpoint skip_ws (s : string) : string :=
  match s with
  | String c r => if json_ws c then skip_ws r else s
  | EmptyString => EmptyString
  end.

Definition digit_of (c : ascii) : option Z :=
  let n := nat_of_ascii c in
  if ((48 <=? n) && (n <=? 57))%nat then Some (Z.of_nat (n - 48)) else None.

Fixpoint read_digits (s : string) (acc : Z) : Z * string :=
  match s with
  | String c r =>
      match digit_of c with
      | Some d => read_digits r (10 * acc + d)%Z
      | None => (acc, s)
      end
  | EmptyString => (acc, s)
  end.

(** After the opening quote: the characters up to the closing quote. *)
Fixpoint read_string (s acc : string) : option (string * string) :=
  match s with
  | EmptyString => None
  | String c r =>
      if Ascii.eqb c "034" then Some (acc, r)
      else if Ascii.eqb c "\" then None
      else if (nat_of_ascii c <? 32)%nat then None
      else read_string r (acc ++ String c EmptyString)
  end.

(** An integer: no leading zero, nothing of a fraction or exponent after. *)
Definition read_int (s : string) : option (Z * string) :=
  let body (s : string) : option (Z * string) :=
    match s with
    | String c r =>
        match digit_of c with
        | None => None
        | Some d =>
            let '(n, rest) :=
              if (d =? 0)%Z then (0%Z, r) else read_digits r d in
            match rest with
            | String c' _ =>
                if Ascii.eqb c' "." || Ascii.eqb c' "e" || Ascii.eqb c' "E"
                   || match digit_of c' with Some _ => true | None => false end
                then None else Some (n, rest)
            | EmptyString => Some (n, rest)
            end
        end
    | EmptyString => None
    end in
  match s with
  | String "-" r =>
      match body r with
      | Some (n, rest) => Some ((- n)%Z, rest)
      | None => None
      end
  | _ => body s
  end.

(** [d[k] = v]: the value of an existing key is replaced in place. *)
Fixpoint dict_set (kv : list (string * pyval)) (k : string) (v : pyval)
  : list (string * pyval) :=
  match kv with
  | [] => [(k, v)]
  | (k', v') :: rest =>
      if String.eqb k' k then (k', v) :: rest else (k', v') :: dict_set rest k v
  end.

Fixpoint decode_value (fuel : nat) (s : string) : option (pyval * string) :=
  match fuel with
  | O => None
  | S f =>
      match skip_ws s with
      | EmptyString => None
      | String c r =>
          if Ascii.eqb c "[" then
            match skip_ws r with
            | String "]" r' => Some (PList [], r')
            | _ =>
                (fix elems (g : nat) (s : string) (acc : list pyval)
                   {struct g} : option (pyval * string) :=
                   match g with
                   | O => None
                   | S g' =>
                       match decode_value f s with
                       | None => None
                       | Some (v, s') =>
                           match skip_ws s' with
                           | String "," s'' => elems g' s'' (acc ++ [v])%list
                           | String "]" s'' => Some (PList (acc ++ [v]), s'')
                           | _ => None
                           end
                       end
                   end) f r []
            end
          else if Ascii.eqb c "{" then
            match skip_ws r with
            | String "}" r' => Some (PDict [], r')
            | _ =>
                (fix members (g : nat) (s : string) (acc : list (string * pyval))
                   {struct g} : option (pyval * string) :=
                   match g with
                   | O => None
                   | S g' =>
                       match skip_ws s with
                       | String c1 s1 =>
                           match
                             (if Ascii.eqb c1 "034"
                              then read_string s1 EmptyString else None)
                           with
                           | None => None
                           | Some (k, s2) =>
                               match skip_ws s2 with
                               | String ":" s3 =>
                                   match decode_value f s3 with
                                   | None => None
                                   | Some (v, s4) =>
                                       match skip_ws s4 with
                                       | String "," s5 =>
                                           members g' s5 (dict_set acc k v)
                                       | String "}" s5 =>
                                           Some (PDict (dict_set acc k v), s5)
                                       | _ => None
                                       end
                                   end
                               | _ => None
                               end
                           end
                       | EmptyString => None
                       end
                   end) f r []
            end
          else if Ascii.eqb c "034" then
            match read_string r EmptyString with
            | Some (str, rest) => Some (PStr str, rest)
            | None => None
            end
          else if prefix "null" (String c r) then Some (PNone, str_from 4 (String c r))
          else if prefix "true" (String c r) then Some (PBool true, str_from 4 (String c r))
          else if prefix "false" (String c r) then Some (PBool false, str_from 5 (String c r))
          else
            match read_int (String c r) with
            | Some (n, rest) => Some (PInt n, rest)
            | None => None
            end
      end
  end.

Definition json_fragment (s : string) : result pyval :=
  match decode_value (S (String.length s)) s with
  | Some (v, rest) =>
      match skip_ws rest with
      | EmptyString => Ok v
      | _ => Raise (Exn ValueError "Extra data")
      end
  | None => Raise (Exn ValueError "Expecting value")
  end.


(** ** Concrete surroundings for the examples *)

(** A stand-in for [repr] of lists and dicts. *)
Definition repr_elided (v : pyval) : string := "[...]".

Definition is_generate (e : event) : bool :=
  match e with
  | Generate _ => true
  | _ => false
  end.

(** A model that fails on every call. *)
Definition model_down : trace -> string -> result string :=
  fun _ _ => Raise (Exn ExternalError "model unreachable").

(** A model whose first call (the expansion) gets [first] and whose later
    calls get [later]. *)
Definition model_replies (first later : result string)
  : trace -> string -> result string :=
  fun t _ => if existsb is_generate t then later else first.

(** A provider that fails on every request. *)
Definition provider_down : trace -> search_params -> result pyval :=
  fun _ _ => Raise (Exn ExternalError "provider unreachable").

Fixpoint lookup_query (tbl : list (string * result pyval)) (q : string)
  : result pyval :=
  match tbl with
  | [] => Raise (Exn ExternalError "provider unreachable")
  | (q', r) :: rest => if String.eqb q' q then r else lookup_query rest q
  end.

(** A provider that answers each query string from a table. *)
Definition provider_table (tbl : list (string * result pyval))
  : trace -> search_params -> result pyval :=
  fun _ params =>
    match param_q params with
    | PStr q => lookup_query tbl q
    | _ => Raise (Exn ExternalError "provider unreachable")
    end.

(** A payload with the given organic results. *)
Definition payload (entries : list pyval) : pyval :=
  PDict [("search_metadata", PDict []); ("organic_results", PList entries)].

(** An organic result with a title and a link. *)
Definition hit (t l : string) : pyval :=
  PDict [("title", PStr t); ("link", PStr l)].


(** A search result as [search] builds it from [hit t l]. *)
Definition found (t l : string) : SearchResult :=
  mkResult (PStr t) (PStr l) (PStr "No description available")
    (PStr EmptyString) (PStr EmptyString).

(** Two per-query lists that share the link [u2]; one result has no link. *)
Definition demo_lists : list (list SearchResult) :=
  [ [found "A" "u1"; found "B" "u2"];
    [found "B again" "u2"; found "no link" EmptyString; found "C" "u3"] ].

Definition demo_unique : list SearchResult :=
  [found "A" "u1"; found "B" "u2"; found "C" "u3"].

(** A payload whose only organic result has a list as its link. *)
Definition payload_list_link : pyval :=
  payload [PDict [("title", PStr "T"); ("link", PList [PStr "u"])]].

(** A reply with a fenced array of six queries, and one with two. *)
Definition reply_six : string :=
  "```json" ++ nl
  ++ "[" ++ dq ++ "a" ++ dq ++ ", " ++ dq ++ "b" ++ dq ++ ", "
  ++ dq ++ "c" ++ dq ++ ", " ++ dq ++ "d" ++ dq ++ ", "
  ++ dq ++ "e" ++ dq ++ ", " ++ dq ++ "f" ++ dq ++ "]" ++ nl ++ "```".

Definition reply_two : string :=
  "[" ++ dq ++ "a" ++ dq ++ ", " ++ dq ++ "b" ++ dq ++ "]".

Definition unhashable_list : exn :=
  Exn TypeError ("unhashable type: " ++ sq ++ "list" ++ sq).

(** A provider whose payload for [a] is a list instead of an object, and
    which finds one result for [b]. *)
Definition provider_a_malformed : trace -> search_params -> result pyval :=
  provider_table [("a", Ok (PList [])); ("b", Ok (payload [hit "B" "u"]))].



(** A model that answers the expansion with the queries [a] and [b]. *)
Definition model_two_queries (answer : string)
  : trace -> string -> result string :=
  model_replies (Ok reply_two) (Ok answer).

Definition expand_demo model (user_query : string) : result pyval * trace :=
  generate_search_queries model json_fragment user_query [].

Definition steps_demo model provider (user_query : string)
  : result ResearchOutcome * trace :=
  research_steps (PStr "key") model provider json_fragment repr_elided
    user_query [].

Definition research_demo model provider (user_query : string)
  : result ResearchOutcome * trace :=
  research_query (PStr "key") model provider json_fragment repr_elided
    user_query [].

(** ** Notions used by the statements *)

(** [len(v)] for the values that have one, 0 for the others. *)
Definition py_len (v : pyval) : nat :=
  match v with
  | PList l => List.length l
  | PStr s => String.length s
  | PDict kv => List.length kv
  | _ => 0
  end.

Definition hashable (v : pyval) : Prop := exists k, py_hash v = Ok k.

(** The key of a result's link in [seen_urls], when the link is hashable. *)
Definition key_of (r : SearchResult) : hkey :=
  match py_hash (link r) with
  | Ok k => k
  | Raise _ => KNone
  end.

(** [x] and [r] have links that compare equal. *)
Definition same_link (r x : SearchResult) : bool :=
  hkey_eqb (key_of x) (key_of r).

(** The results the loop keeps, read off the input alone: the results with a
    true link whose key is not in [seen], each at its first occurrence. *)
Fixpoint first_seen (rs : list SearchResult) (seen : pyset)
  : list SearchResult :=
  match rs with
  | [] => []
  | r :: rest =>
      if negb (set_mem (key_of r) seen) && truthy (link r)
      then r :: first_seen rest (key_of r :: seen)
      else first_seen rest seen
  end.

(** The answer of the synthesizer for a reply of the model. *)
Definition answer_of (user_query : string) (reply : result string) : string :=
  match reply with
  | Ok text => strip text
  | Raise _ => synthesis_fallback user_query
  end.

(** The requests among the events of a trace, in order. *)
Fixpoint http_requests (evs : list event) : list search_params :=
  match evs with
  | [] => []
  | HttpGet _ params :: rest => params :: http_requests rest
  | _ :: rest => http_requests rest
  end.

(** [s] occurs in [text]. *)
Definition occurs_in (s text : string) : Prop :=
  exists before after, text = before ++ s ++ after.

(** The entries of the results, one after the other, numbered from [i]:
    what the prompt of the synthesizer is to enumerate. *)
Fixpoint listing (py_repr : pyval -> string) (i : nat)
  (results : list SearchResult) : string :=
  match results with
  | [] => EmptyString
  | r :: rest => source_entry py_repr i r ++ listing py_repr (S i) rest
  end.

(** ** Notions used by the further statements *)

(** [a] is [b] with some elements left out, the others in their order. *)
Inductive subseq {A : Type} : list A -> list A -> Prop :=
| subseq_nil : subseq [] []
| subseq_skip (x : A) (a b : list A) : subseq a b -> subseq a (x :: b)
| subseq_keep (x : A) (a b : list A) : subseq a b -> subseq (x :: a) (x :: b).

(** The dict [search] builds for an organic result that is an object. *)
Definition entry_of (kv : list (string * pyval)) : SearchResult :=
  mkResult (dict_get kv "title" (PStr "No Title"))
    (dict_get kv "link" (PStr EmptyString))
    (dict_get kv "snippet" (PStr "No description available"))
    (dict_get kv "displayed_link" (PStr EmptyString))
    (dict_get kv "date" (PStr EmptyString)).

Definition is_dict (v : pyval) : bool :=
  match v with
  | PDict _ => true
  | _ => false
  end.

Definition entries_of (v : pyval) : list (string * pyval) :=
  match v with
  | PDict kv => kv
  | _ => []
  end.

(** The character [c] occurs in [s]. *)
Fixpoint mentions (c : ascii) (s : string) : bool :=
  match s with
  | EmptyString => false
  | String x r => Ascii.eqb x c || mentions c r
  end.

(** A reply that wraps [body] in a fence, with the language tag [tag]. *)
Definition fenced (tag body : string) : string :=
  "```" ++ tag ++ nl ++ body ++ nl ++ "```".

(** ** The helpers of [app/utils/helpers.py] *)

(** [s.split()]: the maximal runs of characters that are not whitespace;
    [cur] is the run being read. *)
Fixpoint words_go (cur s : string) : list string :=
  match s with
  | EmptyString =>
      match cur with
      | EmptyString => []
      | _ => [cur]
      end
  | String c r =>
      if isspace c
      then match cur with
           | EmptyString => words_go EmptyString r
           | _ => cur :: words_go EmptyString r
           end
      else words_go (cur ++ String c EmptyString) r
  end.

Definition split_ws (s : string) : list string := words_go EmptyString s.

(** [sep.join(pieces)] *)
Definition join (sep : string) (pieces : list string) : string :=
  String.concat sep pieces.

(** In a match of [<[^<]+?>], after [<] and the first character of the
    body: the number of characters up to and including the first [>], when
    no [<] comes before it. *)
Fixpoint tag_close (s : string) : option nat :=
  match s with
  | EmptyString => None
  | String c r =>
      if Ascii.eqb c ">" then Some 1
      else if Ascii.eqb c "<" then None
      else option_map S (tag_close r)
  end.

(** The length of the match of [<[^<]+?>] at the start of [s], if any. *)
Definition tag_at (s : string) : option nat :=
  match s with
  | String c0 (String c1 r) =>
      if Ascii.eqb c0 "<" && negb (Ascii.eqb c1 "<")
      then option_map (fun n => n + 2) (tag_close r)
      else None
  | _ => None
  end.

(** [re.sub('<[^<]+?>', '', s)]: the matches are found from left to right
    and left out; [skip] counts the characters of a match still to pass. *)
Fixpoint remove_tags_go (skip : nat) (s : string) : string :=
  match s with
  | EmptyString => EmptyString
  | String c r =>
      match skip with
      | S k => remove_tags_go k r
      | O =>
          match tag_at s with
          | Some n => remove_tags_go (n - 1) r
          | None => String c (remove_tags_go 0 r)
          end
      end
  end.

Definition remove_tags (s : string) : string := remove_tags_go 0 s.

Definition no_attribute (v : pyval) (name : string) : exn :=
  Exn AttributeError
    (sq ++ type_name v ++ sq ++ " object has no attribute " ++ sq ++ name ++ sq).

Definition clean_text (text : pyval) : result string :=
  if negb (truthy text) then Ok EmptyString
  else
    match text with
    | PStr s => Ok (strip (remove_tags (join " " (split_ws s))))
    | _ => Raise (no_attribute text "split")
    end.

(** The dict [format_sources] builds for one source. *)
Record FormattedSource : Type := mkFormatted {
  f_title : string;
  f_url : pyval;
  f_description : string;
  f_domain : pyval;
  f_date : pyval
}.

Definition format_source (source : pyval) : result FormattedSource :=
  rbind (py_get source "title" (PStr "Untitled")) (fun t =>
  rbind (clean_text t) (fun t' =>
  rbind (py_get source "link" (PStr EmptyString)) (fun u =>
  rbind (py_get source "snippet" (PStr EmptyString)) (fun s =>
  rbind (clean_text s) (fun s' =>
  rbind (py_get source "source" (PStr EmptyString)) (fun d =>
  rbind (py_get source "date" (PStr EmptyString)) (fun dt =>
  Ok (mkFormatted t' u s' d dt)))))))).

Fixpoint format_loop (sources : list pyval) (formatted : list FormattedSource)
  : result (list FormattedSource) :=
  match sources with
  | [] => Ok formatted
  | source :: rest =>
      rbind (format_source source) (fun f =>
        format_loop rest (formatted ++ [f])%list)
  end.

Definition format_sources (sources : pyval) : result (list FormattedSource) :=
  rbind (py_iter sources) (fun items => format_loop items []).

(** A result of [search] as the dict it is in the source. *)
Definition result_dict (r : SearchResult) : pyval :=
  PDict [("title", title r); ("link", link r); ("snippet", snippet r);
         ("source", source r); ("date", date r)].

(** Every character of [s] satisfies [p]. *)
Fixpoint all_chars (p : ascii -> bool) (s : string) : bool :=
  match s with
  | EmptyString => true
  | String c r => p c && all_chars p r
  end.

(** A character that is not whitespace, or is the plain space. *)
Definition plain (c : ascii) : bool := negb (isspace c) || Ascii.eqb c " ".

(** What [clean_text] makes of a value it accepts. *)
Definition cleaned (v : pyval) : string :=
  match clean_text v with
  | Ok s => s
  | Raise _ => EmptyString
  end.

(** A value [clean_text] accepts: a string, or anything false. *)
Definition cleanable (v : pyval) : bool :=
  match v with
  | PStr _ => true
  | _ => negb (truthy v)
  end.

(** A word: not empty, without whitespace. *)
Definition is_word (w : string) : Prop :=
  w <> EmptyString /\ all_chars (fun c => negb (isspace c)) w = true.


(** ** [validate_email] of [app/routes/auth.py]

    A pattern without back-references or look-around matches a string when
    the string is in its regular language; [matches] decides this by
    derivatives. *)

Inductive regex : Type :=
| RNone
| REps
| RClass (p : ascii -> bool)
| RCat (a b : regex)
| RAlt (a b : regex)
| RStar (a : regex).

Fixpoint nullable (r : regex) : bool :=
  match r with
  | RNone => false
  | REps => true
  | RClass _ => false
  | RCat a b => nullable a && nullable b
  | RAlt a b => nullable a || nullable b
  | RStar _ => true
  end.

Fixpoint deriv (c : ascii) (r : regex) : regex :=
  match r with
  | RNone => RNone
  | REps => RNone
  | RClass p => if p c then REps else RNone
  | RCat a b =>
      if nullable a
      then RAlt (RCat (deriv c a) b) (deriv c b)
      else RCat (deriv c a) b
  | RAlt a b => RAlt (deriv c a) (deriv c b)
  | RStar a => RCat (deriv c a) (RStar a)
  end.

Fixpoint matches (r : regex) (s : string) : bool :=
  match s with
  | EmptyString => nullable r
  | String c s' => matches (deriv c r) s'
  end.

(** [x+] *)
Definition rplus (r : regex) : regex := RCat r (RStar r).

Definition in_range (lo hi c : ascii) : bool :=
  ((nat_of_ascii lo <=? nat_of_ascii c)
   && (nat_of_ascii c <=? nat_of_ascii hi))%nat.

Definition is_char (x c : ascii) : bool := Ascii.eqb c x.

(** [[a-zA-Z]] *)
Definition letter (c : ascii) : bool := in_range "a" "z" c || in_range "A" "Z" c.

(** [[a-zA-Z0-9]] *)
Definition alnum (c : ascii) : bool := letter c || in_range "0" "9" c.

(** [[a-zA-Z0-9._%+-]] *)
Definition local_char (c : ascii) : bool :=
  alnum c || is_char "." c || is_char "_" c || is_char "%" c
  || is_char "+" c || is_char "-" c.

(** [[a-zA-Z0-9.-]] *)
Definition domain_char (c : ascii) : bool :=
  alnum c || is_char "." c || is_char "-" c.

(** [[a-zA-Z0-9._%+-]+@[a-zA-Z0-9.-]+\.[a-zA-Z]{2,}], the pattern between
    its anchors. *)
Definition email_pattern : regex :=
  RCat (rplus (RClass local_char))
    (RCat (RClass (is_char "@"))
       (RCat (rplus (RClass domain_char))
          (RCat (RClass (is_char "."))
             (RCat (RClass letter)
                (RCat (RClass letter) (RStar (RClass letter))))))).

(** [$]: the end of the string, or the newline that ends it. *)
Definition at_end : regex := RAlt REps (RClass (is_char "010")).

(** [re.match(pattern, email) is not None], for a string. *)
Definition validate_email (email : string) : bool :=
  matches (RCat email_pattern at_end) email.

(** Zero or more non-empty pieces that satisfy [P], one after the other. *)
Inductive star_of (P : string -> Prop) : string -> Prop :=
| star_nil : star_of P EmptyString
| star_app (s1 s2 : string) :
    P s1 -> s1 <> EmptyString -> star_of P s2 -> star_of P (s1 ++ s2).

(** The language of a pattern. *)
Fixpoint lang (r : regex) (s : string) : Prop :=
  match r with
  | RNone => False
  | REps => s = EmptyString
  | RClass p => exists c, s = String c EmptyString /\ p c = true
  | RCat a b => exists s1 s2, s = (s1 ++ s2)%string /\ lang a s1 /\ lang b s2
  | RAlt a b => lang a s \/ lang b s
  | RStar a => star_of (lang a) s
  end.

(** The number of occurrences of [c] in [s]. *)
Fixpoint count_char (c : ascii) (s : string) : nat :=
  match s with
  | EmptyString => 0
  | String x r => (if Ascii.eqb x c then 1 else 0) + count_char c r
  end.

(** The last character of a string. *)
Fixpoint last_char (s : string) : option ascii :=
  match s with
  | EmptyString => None
  | String c EmptyString => Some c
  | String _ r => last_char r
  end.

(** An address as the pattern reads it: a local part, [@], a domain, a dot
    and a top-level name of two letters or more. *)
Definition address (s l d t : string) : Prop :=
  s = (l ++ "@" ++ d ++ "." ++ t)%string
  /\ l <> EmptyString /\ all_chars local_char l = true
  /\ d <> EmptyString /\ all_chars domain_char d = true
  /\ 2 <= String.length t /\ all_chars letter t = true.

(** ** The route [/api/chat/search] of [app/routes/chat.py]

    The model starts where the body of [search_query] starts: the decorator
    [jwt_required] has let the request through.  What Flask, the session
    and the token library answer is given by the variables of the section;
    [jsonify] is the pair of the dict and the status. *)

(** The columns of a [Chat] the route sets; [chat_sources] is the list that
    [set_sources] is given. *)
Record chat_row : Type := mkChat {
  chat_user_id : pyval;
  chat_query : string;
  chat_response : string;
  chat_sources : list SearchResult
}.

(** The columns of a [User] that [register] sets. *)
Record user_row : Type := mkUser {
  user_username : pyval;
  user_email : pyval;
  user_password_hash : string
}.

Inductive db_row : Type :=
| ChatRow (chat : chat_row)
| UserRow (user : user_row).

(** The calls on [db.session]. *)
Inductive db_event : Type :=
| DbAdd (row : db_row)
| DbCommit
| DbRollback.

(** The dict given to [jsonify]. *)
Inductive reply_body : Type :=
| ErrorBody (error : string)
| ResearchBody (answer : string) (found_sources : list SearchResult)
    (query : string) (chat_id : pyval).

(** The trace of the services and the calls on the session. *)
Definition site : Type := (trace * list db_event)%type.

Definition R (A : Type) : Type := site -> result A * site.

Definition r_ret {A} (a : A) : R A := fun st => (Ok a, st).

Definition r_bind {A B} (c : R A) (k : A -> R B) : R B :=
  fun st =>
    match c st with
    | (Ok a, st') => k a st'
    | (Raise e, st') => (Raise e, st')
    end.

Definition r_lift {A} (r : result A) : R A := fun st => (r, st).

(** A computation of the services, run on the trace of the site. *)
Definition r_services {A} (c : M A) : R A :=
  fun st =>
    match c (fst st) with
    | (r, t') => (r, (t', snd st))
    end.

Definition r_db (e : db_event) : R unit :=
  fun st => (Ok tt, (fst st, (snd st ++ [e])%list)).

Declare Scope route_scope.
Delimit Scope route_scope with route.
Notation "x <- c ;; k" := (r_bind c (fun x => k))
  (at level 61, c at next level, right associativity) : route_scope.
Notation "c ;; k" := (r_bind c (fun _ => k))
  (at level 61, right associativity) : route_scope.

(** [v.strip()] *)
Definition py_strip (v : pyval) : result string :=
  match v with
  | PStr s => Ok (strip s)
  | _ => Raise (no_attribute v "strip")
  end.

Section Route.

Variable api_key : pyval.
Variable model : trace -> string -> result string.
Variable provider : trace -> search_params -> result pyval.
Variable json_loads : string -> result pyval.
Variable py_repr : pyval -> string.

(** [get_jwt_identity()] *)
Variable current_user_id : pyval.

(** [User.query.get(current_user_id)]: whether a user came back, given the
    calls on the session so far, or the exception raised. *)
Variable find_user : list db_event -> result bool.

(** [request.get_json()] *)
Variable get_json : result pyval.

(** [ResearchAgent()]: the constructors of the two services. *)
Variable new_agent : result unit.

(** [db.session.commit()] after the chat was added: the id the chat got, or
    the exception raised. *)
Variable commit : list db_event -> result pyval.

(** The query the route works with: [data.get('query', '').strip()]. *)
Definition query_of_request : result string :=
  rbind get_json (fun data =>
  rbind (py_get data "query" (PStr EmptyString)) py_strip).

(** The body of the [try] of [search_query]. *)
Definition search_query_steps : R (reply_body * nat) :=
  (user <- (fun st => (find_user (snd st), st)) ;;
   if negb user then r_ret (ErrorBody "User not found", 404)
   else
     data <- r_lift get_json ;;
     raw <- r_lift (py_get data "query" (PStr EmptyString)) ;;
     query <- r_lift (py_strip raw) ;;
     if (String.length query =? 0)%nat
     then r_ret (ErrorBody "Query is required", 400)
     else
       r_lift new_agent ;;
       result <- r_services
                   (research_query api_key model provider json_loads py_repr
                      query) ;;
       let chat := mkChat current_user_id query (response result)
                     (sources result) in
       r_db (DbAdd (ChatRow chat)) ;;
       chat_id <- (fun st => (commit (snd st), (fst st, (snd st ++ [DbCommit])%list))) ;;
       r_ret (ResearchBody (response result) (sources result) query chat_id,
              200))%route.

Definition search_query (st : site) : (reply_body * nat) * site :=
  match search_query_steps st with
  | (Ok reply, st') => (reply, st')
  | (Raise e, st') =>
      ((ErrorBody (exn_msg e), 500), (fst st', (snd st' ++ [DbRollback])%list))
  end.

End Route.

(** ** The route [/api/auth/register] of [app/routes/auth.py] *)

(** [len(v)] *)
Definition py_len_of (v : pyval) : result nat :=
  match v with
  | PStr s => Ok (String.length s)
  | PList l => Ok (List.length l)
  | PDict kv => Ok (List.length kv)
  | _ => Raise (Exn TypeError
                  ("object of type " ++ sq ++ type_name v ++ sq
                   ++ " has no len()"))
  end.

(** [validate_email(v)]: [re.match] refuses what is not a string. *)
Definition validate_email_of (v : pyval) : result bool :=
  match v with
  | PStr s => Ok (validate_email s)
  | _ => Raise (Exn TypeError "expected string or bytes-like object")
  end.

(** The columns of the user as the session reads them back after the
    commit: [user.id], [user.username] and [user.email].  They are what the
    database holds, not what the request held: a column of strings gives a
    string back for a number. *)
Record stored_user : Type := mkStored {
  stored_id : pyval;
  stored_username : pyval;
  stored_email : pyval
}.

(** The dict given to [jsonify] by [register]: an error, or the token with
    the four entries of [user.to_dict()]. *)
Inductive register_body : Type :=
| RegisterError (error : string)
| Registered (access_token : string) (user_id username email : pyval)
    (created_at : string).

Section Register.

(** [request.get_json()] *)
Variable get_json : result pyval.

(** [User.query.filter_by(username=v).first()] and
    [User.query.filter_by(email=v).first()]: whether a user came back, given
    the calls on the session so far, or the exception raised. *)
Variable username_taken : pyval -> list db_event -> result bool.
Variable email_taken : pyval -> list db_event -> result bool.

(** [generate_password_hash(password)] *)
Variable generate_password_hash : pyval -> result string.

(** [db.session.commit()] after the user was added, and the row the session
    loads back when [user.id] is read next: the stored columns, or the
    exception raised. *)
Variable commit : list db_event -> result stored_user.

(** [create_access_token(identity=user.id)] *)
Variable create_access_token : pyval -> result string.

(** [user.created_at.isoformat()] *)
Variable created_at : result string.

(** The body of the [try] of [register]. *)
Definition register_steps : R (register_body * nat) :=
  (data <- r_lift get_json ;;
   username <- r_lift (py_get data "username" PNone) ;;
   if negb (truthy username)
   then r_ret (RegisterError "All fields are required", 400)
   else
     email <- r_lift (py_get data "email" PNone) ;;
     if negb (truthy email)
     then r_ret (RegisterError "All fields are required", 400)
     else
       password <- r_lift (py_get data "password" PNone) ;;
       if negb (truthy password)
       then r_ret (RegisterError "All fields are required", 400)
       else
         n <- r_lift (py_len_of password) ;;
         if (n <? 6)%nat
         then r_ret (RegisterError
                       "Password must be at least 6 characters long", 400)
         else
           valid <- r_lift (validate_email_of email) ;;
           if negb valid
           then r_ret (RegisterError "Invalid email format", 400)
           else
             taken <- (fun st => (username_taken username (snd st), st)) ;;
             if (taken : bool)
             then r_ret (RegisterError "Username already exists", 409)
             else
               taken' <- (fun st => (email_taken email (snd st), st)) ;;
               if (taken' : bool)
               then r_ret (RegisterError "Email already registered", 409)
               else
                 hash <- r_lift (generate_password_hash password) ;;
                 r_db (DbAdd (UserRow (mkUser username email hash))) ;;
                 user <- (fun st => (commit (snd st),
                                     (fst st, (snd st ++ [DbCommit])%list))) ;;
                 access_token <- r_lift (create_access_token (stored_id user)) ;;
                 stamp <- r_lift created_at ;;
                 r_ret (Registered access_token (stored_id user)
                          (stored_username user) (stored_email user) stamp,
                        201))%route.

Definition register (st : site) : (register_body * nat) * site :=
  match register_steps st with
  | (Ok reply, st') => (reply, st')
  | (Raise e, st') =>
      ((RegisterError (exn_msg e), 500),
       (fst st', (snd st' ++ [DbRollback])%list))
  end.

End Register.

(** A site for the examples: user 7, the model and the provider down, an
    agent that can be built and a commit that gives the chat the id 1. *)
Definition demo_route (user : result bool) (request : result pyval) (st : site)
  : (reply_body * nat) * site :=
  search_query (PStr "key") model_down provider_down json_fragment repr_elided
    (PInt 7) (fun _ => user) request (Ok tt) (fun _ => Ok (PInt 1)) st.

Definition request_with (query : pyval) : result pyval :=
  Ok (PDict [("query", query)]).

(** * Properties *)

Open Scope list_scope.

(** ** Keys and sets *)

Lemma hkey_eqb_eq (a b : hkey) : hkey_eqb a b = true <-> a = b.
Proof.
  destruct a, b; simpl; split; intro H; try discriminate; try reflexivity.
  - apply Z.eqb_eq in H. now subst.
  - inversion H. apply Z.eqb_refl.
  - apply String.eqb_eq in H. now subst.
  - inversion H. apply String.eqb_refl.
Qed.

Lemma set_mem_In (k : hkey) (s : pyset) : set_mem k s = true <-> In k s.
Proof.
  unfold set_mem. rewrite existsb_exists. split.
  - intros [x [Hx He]]. apply hkey_eqb_eq in He. now subst.
  - intro H. exists k. split; [assumption | now apply hkey_eqb_eq].
Qed.

Lemma set_mem_not_In (k : hkey) (s : pyset) : set_mem k s = false <-> ~ In k s.
Proof.
  rewrite <- set_mem_In. destruct (set_mem k s); split; intro H;
    congruence || (exfalso; now apply H) || discriminate.
Qed.

Lemma key_of_hash (r : SearchResult) (k : hkey) :
  py_hash (link r) = Ok k -> key_of r = k.
Proof. unfold key_of. now intros ->. Qed.

Lemma hashable_key (r : SearchResult) :
  hashable (link r) -> py_hash (link r) = Ok (key_of r).
Proof. intros [k H]. now rewrite (key_of_hash _ _ H). Qed.

(** Values with the same key are both true or both false. *)
Lemma key_truthy (a b : pyval) (k : hkey) :
  py_hash a = Ok k -> py_hash b = Ok k -> truthy a = truthy b.
Proof.
  destruct a as [| ba | za | sa | la | da], b as [| bb | zb | sb | lb | db];
    simpl; intros Ha Hb; inversion Ha; subst; inversion Hb; subst;
    try reflexivity.
  - destruct ba, bb; reflexivity || discriminate.
  - now destruct ba.
  - now destruct bb.
Qed.

Lemma string_link_hashable (v : pyval) (s : string) :
  v = PStr s -> hashable v.
Proof. intros ->. now exists (KStr s). Qed.

Lemma truthy_string (s : string) : truthy (PStr s) = true <-> s <> EmptyString.
Proof.
  destruct s; simpl; split; intro H; congruence || reflexivity || discriminate.
Qed.

(** ** The loop that removes duplicates *)

Lemma dedup_loop_hashable (rs u : list SearchResult) (seen : pyset) :
  Forall (fun r => hashable (link r)) rs ->
  dedup_loop rs u seen = Ok (u ++ first_seen rs seen)%list.
Proof.
  intro H. revert u seen.
  induction H as [| r rest Hr _ IH]; intros u seen; simpl.
  - now rewrite app_nil_r.
  - unfold set_contains, set_add. rewrite (hashable_key r Hr). simpl.
    destruct (set_mem (key_of r) seen) eqn:Hm; simpl.
    + apply IH.
    + destruct (truthy (link r)); simpl.
      * rewrite IH. now rewrite <- app_assoc.
      * apply IH.
Qed.

Lemma dedup_loop_raise (rs u : list SearchResult) (seen : pyset) (e : exn) :
  dedup_loop rs u seen = Raise e ->
  exists pre r post, rs = (pre ++ r :: post)%list
    /\ Forall (fun x => hashable (link x)) pre
    /\ py_hash (link r) = Raise e.
Proof.
  revert u seen. induction rs as [| r rest IH]; intros u seen; simpl.
  - discriminate.
  - unfold set_contains, set_add.
    destruct (py_hash (link r)) as [k |e'] eqn:Hk; simpl.
    + intro H.
      assert (exists u' seen', dedup_loop rest u' seen' = Raise e) as [u' [s' H']].
      { destruct (negb (set_mem k seen) && truthy (link r)); eauto. }
      destruct (IH _ _ H') as [pre [x [post [-> [Hp Hx]]]]].
      exists (r :: pre), x, post. repeat split; auto.
      constructor; [now exists k | assumption].
    + intro H. inversion H; subst. exists [], r, rest. repeat split; auto.
Qed.

Lemma dedup_loop_ok (rs u out : list SearchResult) (seen : pyset) :
  dedup_loop rs u seen = Ok out ->
  Forall (fun r => hashable (link r)) rs.
Proof.
  revert u seen. induction rs as [| r rest IH]; intros u seen; simpl.
  - constructor.
  - unfold set_contains, set_add.
    destruct (py_hash (link r)) as [k |e'] eqn:Hk; simpl; [| discriminate].
    intro H. constructor; [now exists k |].
    destruct (negb (set_mem k seen) && truthy (link r)); eapply IH; eauto.
Qed.

Lemma deduplicate_first_seen (rs out : list SearchResult) :
  deduplicate rs = Ok out -> out = first_seen rs [].
Proof.
  unfold deduplicate. intro H.
  rewrite (dedup_loop_hashable rs [] [] (dedup_loop_ok _ _ _ _ H)) in H.
  now inversion H.
Qed.

Lemma first_seen_In (rs : list SearchResult) (seen : pyset) (r : SearchResult) :
  In r (first_seen rs seen) ->
  In r rs /\ truthy (link r) = true /\ ~ In (key_of r) seen.
Proof.
  revert seen. induction rs as [| x rest IH]; intros seen; simpl.
  - contradiction.
  - destruct (set_mem (key_of x) seen) eqn:Hm; simpl.
    + intro H. destruct (IH _ H) as [? [? ?]]. auto.
    + destruct (truthy (link x)) eqn:Ht; simpl.
      * intros [-> | H].
        -- repeat split; auto. now apply set_mem_not_In.
        -- destruct (IH _ H) as [? [? Hn]]. repeat split; auto.
           intro Hs. apply Hn. now right.
      * intro H. destruct (IH _ H) as [? [? ?]]. auto.
Qed.

Lemma first_seen_NoDup (rs : list SearchResult) (seen : pyset) :
  NoDup (map key_of (first_seen rs seen)).
Proof.
  revert seen. induction rs as [| x rest IH]; intros seen; simpl.
  - constructor.
  - destruct (negb (set_mem (key_of x) seen) && truthy (link x)); simpl; auto.
    constructor; auto.
    intro H. apply in_map_iff in H. destruct H as [y [Hk Hy]].
    apply first_seen_In in Hy. destruct Hy as [_ [_ Hn]].
    apply Hn. left. now symmetry.
Qed.

(** The keys kept from [rs] are the keys, new to [seen], of its results
    with a true link. *)
Lemma first_seen_keys (rs : list SearchResult) (seen : pyset) (k : hkey) :
  In k (map key_of (first_seen rs seen)) <->
  (~ In k seen /\ exists x, In x rs /\ key_of x = k /\ truthy (link x) = true).
Proof.
  revert seen. induction rs as [| r rest IH]; intros seen; simpl.
  - split; [contradiction | intros [_ [x [[] _]]]].
  - destruct (set_mem (key_of r) seen) eqn:Hm; simpl.
    + rewrite IH. split.
      * intros [Hn [x [Hx Hk]]]. split; auto. exists x. auto.
      * intros [Hn [x [[-> | Hx] [Hk Ht]]]].
        -- subst. exfalso. apply Hn. now apply set_mem_In.
        -- split; auto. exists x. auto.
    + destruct (truthy (link r)) eqn:Ht; simpl.
      * rewrite IH. apply set_mem_not_In in Hm. split.
        -- intros [<- | [Hn [x [Hx [Hk Hx']]]]].
           ++ split; auto. exists r. auto.
           ++ split; [intro; apply Hn; now right |]. exists x. auto.
        -- intros [Hn [x [[-> | Hx] [Hk Hx']]]]; [now left |].
           destruct (hkey_eqb (key_of r) k) eqn:He.
           ++ left. now apply hkey_eqb_eq.
           ++ right. split.
              ** intros [Heq | Hs]; [| contradiction].
                 apply hkey_eqb_eq in Heq. congruence.
              ** exists x. auto.
      * rewrite IH. split.
        -- intros [Hn [x [Hx Hk]]]. split; auto. exists x. auto.
        -- intros [Hn [x [[-> | Hx] [Hk Hx']]]]; [congruence |].
           split; auto. exists x. auto.
Qed.

Lemma first_seen_app (a b : list SearchResult) (seen : pyset) :
  first_seen (a ++ b) seen =
  (first_seen a seen
   ++ first_seen b (rev (map key_of (first_seen a seen)) ++ seen))%list.
Proof.
  revert seen. induction a as [| r rest IH]; intros seen; simpl.
  - reflexivity.
  - destruct (negb (set_mem (key_of r) seen) && truthy (link r)); simpl.
    + rewrite IH. now rewrite <- app_assoc.
    + apply IH.
Qed.

(** A list without two equal keys, of results with true links new to
    [seen], is kept as it is. *)
Lemma first_seen_fixed (l : list SearchResult) (seen : pyset) :
  NoDup (map key_of l) ->
  Forall (fun r => truthy (link r) = true) l ->
  (forall r, In r l -> ~ In (key_of r) seen) ->
  first_seen l seen = l.
Proof.
  revert seen. induction l as [| r rest IH]; intros seen Hnd Ht Hs; simpl.
  - reflexivity.
  - inversion Hnd as [| ? ? Hr Hnd']; subst.
    inversion Ht as [| ? ? Htr Ht']; subst.
    assert (set_mem (key_of r) seen = false) as ->.
    { apply set_mem_not_In. apply Hs. now left. }
    rewrite Htr. simpl. f_equal. apply IH; auto.
    intros x Hx [Heq | Hin].
    + apply Hr. apply in_map_iff. exists x. auto.
    + apply (Hs x); [now right | assumption].
Qed.

Lemma Forall_hashable_app (a b : list SearchResult) :
  Forall (fun r => hashable (link r)) (a ++ b) ->
  Forall (fun r => hashable (link r)) a /\ Forall (fun r => hashable (link r)) b.
Proof. intro H. now apply Forall_app in H. Qed.

(** With hashable links, a true link is in the set built from [pre] exactly
    when a result of [pre] has an equal link. *)
Lemma seen_before (pre : list SearchResult) (r : SearchResult) :
  Forall (fun x => hashable (link x)) pre ->
  hashable (link r) ->
  truthy (link r) = true ->
  set_mem (key_of r) (rev (map key_of (first_seen pre [])) ++ [])
  = existsb (same_link r) pre.
Proof.
  intros Hp Hr Ht. rewrite app_nil_r.
  destruct (existsb (same_link r) pre) eqn:He.
  - apply set_mem_In. rewrite <- in_rev. apply first_seen_keys.
    split; [intros [] |].
    apply existsb_exists in He. destruct He as [x [Hx Hs]].
    apply hkey_eqb_eq in Hs. exists x. repeat split; auto.
    rewrite Forall_forall in Hp.
    rewrite <- Ht. apply (key_truthy _ _ (key_of r)).
    + rewrite <- Hs. apply hashable_key. now apply Hp.
    + now apply hashable_key.
  - apply set_mem_not_In. rewrite <- in_rev. intro H.
    apply first_seen_keys in H. destruct H as [_ [x [Hx [Hk _]]]].
    assert (existsb (same_link r) pre = true) as Hc; [| congruence].
    apply existsb_exists. exists x. split; auto.
    unfold same_link. now apply hkey_eqb_eq.
Qed.

(** C4: for every sequence of per-query result lists, the loop that removes
    duplicates either stops on a link that cannot be hashed, or returns a
    list in which every link is true (so no empty string), no two links are
    equal, and each result sits where it first occurred: cutting the input
    before any result [r], the output starts with the output for the part
    before [r], and [r] comes next exactly when its link is true and no
    earlier result has an equal link.  With string links the loop always
    returns. *)
Theorem dedup_unique_first_occurrence (lists : list (list SearchResult)) :
  (match deduplicate (concat lists) with
   | Raise e => exists r, In r (concat lists) /\ py_hash (link r) = Raise e
   | Ok out =>
       Forall (fun r => truthy (link r) = true
                        /\ link r <> PStr EmptyString) out
       /\ NoDup (map link out)
       /\ NoDup (map key_of out)
       /\ (forall pre r post, concat lists = (pre ++ r :: post)%list ->
             exists kept_before kept_after,
               deduplicate pre = Ok kept_before
               /\ out = (kept_before
                         ++ (if truthy (link r)
                                && negb (existsb (same_link r) pre)
                             then [r] else [])
                         ++ kept_after)%list
               /\ (forall x, In x kept_after -> In x post))
   end)
  /\ ((forall r, In r (concat lists) -> exists s, link r = PStr s) ->
      exists out, deduplicate (concat lists) = Ok out).
Proof.
  set (all := concat lists). split.
  - destruct (deduplicate all) as [out | e] eqn:Hd.
    + pose proof (dedup_loop_ok _ _ _ _ Hd) as Hh.
      apply deduplicate_first_seen in Hd. subst out.
      assert (NoDup (map key_of (first_seen all []))) as Hk
        by apply first_seen_NoDup.
      repeat split.
      * apply Forall_forall. intros r Hr.
        apply first_seen_In in Hr. destruct Hr as [_ [Ht _]].
        split; auto. intro Hl. rewrite Hl in Ht. discriminate.
      * assert (map key_of (first_seen all [])
                = map (fun v => match py_hash v with Ok k => k | Raise _ => KNone end)
                      (map link (first_seen all []))) as Hm.
        { rewrite map_map. reflexivity. }
        rewrite Hm in Hk. now apply NoDup_map_inv in Hk.
      * exact Hk.
      * intros pre r post Hsplit. rewrite Hsplit in *.
        apply Forall_hashable_app in Hh. destruct Hh as [Hpre Hrest].
        inversion Hrest as [| ? ? Hr Hpost]; subst.
        rewrite first_seen_app. simpl.
        exists (first_seen pre []).
        destruct (truthy (link r)) eqn:Ht.
        -- rewrite (seen_before pre r Hpre Hr Ht).
           destruct (existsb (same_link r) pre); simpl.
           ++ eexists. split; [| split; [reflexivity |]].
              ** unfold deduplicate. now rewrite dedup_loop_hashable.
              ** intros x Hx. now apply first_seen_In in Hx.
           ++ eexists. split; [| split; [reflexivity |]].
              ** unfold deduplicate. now rewrite dedup_loop_hashable.
              ** intros x Hx. now apply first_seen_In in Hx.
        -- rewrite andb_false_r. simpl.
           eexists. split; [| split; [reflexivity |]].
           ++ unfold deduplicate. now rewrite dedup_loop_hashable.
           ++ intros x Hx. now apply first_seen_In in Hx.
    + apply dedup_loop_raise in Hd.
      destruct Hd as [pre [r [post [Hs [_ Hr]]]]].
      exists r. split; auto. rewrite Hs. apply in_elt.
  - intro Hstr. exists (first_seen all []). unfold deduplicate.
    rewrite dedup_loop_hashable; [reflexivity |].
    apply Forall_forall. intros r Hr. destruct (Hstr r Hr) as [s Hs].
    now apply (string_link_hashable _ s).
Qed.

(** C6: removing duplicates from the output of the loop, taken as the one
    list of a second run, returns that output unchanged. *)
Theorem deduplicate_idempotent (lists : list (list SearchResult))
  (out : list SearchResult) :
  deduplicate (concat lists) = Ok out ->
  deduplicate (concat [out]) = Ok out.
Proof.
  intro Hd. pose proof (dedup_loop_ok _ _ _ _ Hd) as Hh.
  apply deduplicate_first_seen in Hd.
  simpl. rewrite app_nil_r. unfold deduplicate.
  assert (Forall (fun r => hashable (link r)) out) as Ho.
  { apply Forall_forall. intros r Hr. subst out.
    apply first_seen_In in Hr. destruct Hr as [Hr _].
    rewrite Forall_forall in Hh. now apply Hh. }
  rewrite (dedup_loop_hashable out [] [] Ho). simpl. f_equal.
  apply first_seen_fixed.
  - subst out. apply first_seen_NoDup.
  - apply Forall_forall. intros r Hr. subst out.
    now apply first_seen_In in Hr.
  - intros r _ [].
Qed.

(** C5: [limit] returns a prefix of its input, of length at most the cap and
    at most the length of the input, with the same result at every position
    it keeps. *)
Theorem limit_is_prefix (cap : nat) (results : list SearchResult) :
  (exists dropped, results = (limit cap results ++ dropped)%list)
  /\ List.length (limit cap results) <= cap
  /\ List.length (limit cap results) <= List.length results
  /\ (forall i, i < List.length (limit cap results) ->
        nth_error (limit cap results) i = nth_error results i).
Proof.
  unfold limit. repeat split.
  - exists (skipn cap results). now rewrite firstn_skipn.
  - apply firstn_le_length.
  - rewrite length_firstn. apply Nat.le_min_r.
  - intros i Hi. rewrite length_firstn in Hi.
    rewrite nth_error_firstn.
    assert ((i <? cap)%nat = true) as -> by (apply Nat.ltb_lt; lia).
    reflexivity.
Qed.

(** ** The services *)

Lemma length_chars (s : string) : List.length (chars s) = String.length s.
Proof. induction s; simpl; congruence. Qed.

Lemma length_str_to (n : nat) (s : string) : String.length (str_to n s) <= n.
Proof.
  revert s. induction n as [| n IH]; intros [| c r]; simpl; try lia.
  specialize (IH r). lia.
Qed.

Lemma slice_to_len (n : nat) (v w : pyval) :
  slice_to n v = Ok w ->
  py_len w <= n
  /\ ((exists l, v = PList l /\ w = PList (firstn n l))
      \/ (exists s, v = PStr s /\ w = PStr (str_to n s))).
Proof.
  destruct v; simpl; intro H; inversion H; subst; simpl.
  - split; [apply length_str_to | right; eauto].
  - split; [apply firstn_le_length | left; eauto].
Qed.

Lemma app_events (t : trace) (a : event) (evs : list event) :
  (t ++ [a]) ++ evs = t ++ a :: evs.
Proof. now rewrite <- app_assoc. Qed.

Lemma str_app_assoc (a b c : string) :
  ((a ++ b) ++ c = a ++ (b ++ c))%string.
Proof. induction a as [| x a IH]; simpl; [reflexivity | now rewrite IH]. Qed.

Lemma str_app_nil_r (s : string) : (s ++ EmptyString)%string = s.
Proof. induction s as [| c s IH]; simpl; [reflexivity | now rewrite IH]. Qed.

Lemma split_go_cons (sep : string) (skip : nat) (cur s : string) :
  exists piece rest, split_go sep skip cur s = piece :: rest.
Proof.
  revert skip cur. induction s as [| c r IH]; intros skip cur; cbn [split_go].
  - eauto.
  - destruct skip as [| k]; [| apply IH].
    destruct (prefix sep (String c r)); [eauto | apply IH].
Qed.

(** Removing the fence never raises: a text that starts with the fence
    splits into at least two pieces. *)
Lemma strip_fence_total (s : string) : exists qt, strip_fence s = Ok qt.
Proof.
  unfold strip_fence. destruct (startswith "```" s) eqn:Hf; [| eauto].
  destruct s as [| c r]; [discriminate |].
  unfold split. cbn [split_go]. unfold startswith in Hf. rewrite Hf.
  destruct (split_go_cons "```" (String.length "```" - 1) EmptyString r)
    as [piece [rest Hs]].
  rewrite Hs. unfold index. cbn [nth_error rbind].
  destruct (startswith "json" (strip piece)); eauto.
Qed.

Section Pipeline.

Variable api_key : pyval.
Variable model : trace -> string -> result string.
Variable provider : trace -> search_params -> result pyval.
Variable json_loads : string -> result pyval.
Variable py_repr : pyval -> string.

Local Abbreviation expand := (generate_search_queries model json_loads).
Local Abbreviation decode := (decode_reply json_loads).
Local Abbreviation queries_for := (queries_of json_loads).
Local Abbreviation synthesize := (synthesize_research_response model py_repr).
Local Abbreviation prompt_for := (synthesis_prompt py_repr).
Local Abbreviation search1 := (search api_key provider).
Local Abbreviation request := (request_for api_key).
Local Abbreviation fanout := (search_loop api_key provider).
Local Abbreviation lists_of := (per_query_results api_key provider).
Local Abbreviation steps :=
  (research_steps api_key model provider json_loads py_repr).
Local Abbreviation run :=
  (research_query api_key model provider json_loads py_repr).

Lemma expand_run (q : string) (t : trace) :
  expand q t
  = (Ok (queries_for q (model t (expansion_prompt q))),
     t ++ [Generate (expansion_prompt q)]).
Proof.
  unfold generate_search_queries, queries_of, decode_reply, try_except, bind,
    generate_content, lift, ret, rbind.
  destruct (model t (expansion_prompt q)) as [text |]; [| reflexivity].
  destruct (strip_fence (strip text)) as [qt |]; [| reflexivity].
  destruct (json_loads qt) as [v |]; [| reflexivity].
  destruct (slice_to 5 v); reflexivity.
Qed.

(** The value returned by the expander can be iterated and has at most
    five entries. *)
Lemma queries_iterable (q : string) (reply : result string) :
  exists qs, py_iter (queries_for q reply) = Ok qs
             /\ List.length qs = py_len (queries_for q reply)
             /\ py_len (queries_for q reply) <= 5.
Proof.
  unfold queries_of. destruct (decode reply) as [v | e] eqn:Hd.
  - unfold decode_reply, rbind in Hd.
    destruct reply as [text |]; [| discriminate].
    destruct (strip_fence (strip text)) as [qt |]; [| discriminate].
    destruct (json_loads qt) as [w |]; [| discriminate].
    apply slice_to_len in Hd. destruct Hd as [Hl [[l [_ ->]] | [s [_ ->]]]].
    + exists (firstn 5 l). simpl in *. auto.
    + exists (map PStr (chars (str_to 5 s))). simpl in *.
      rewrite length_map, length_chars. auto.
  - exists [PStr q]. simpl. repeat split; lia.
Qed.

Lemma synthesize_run (q : string) (rs : list SearchResult) (t : trace) :
  synthesize q rs t
  = (Ok (answer_of q (model t (prompt_for q rs))),
     t ++ [Generate (prompt_for q rs)]).
Proof.
  unfold synthesize_research_response, answer_of, try_except, bind,
    generate_content, ret.
  destruct (model t (prompt_for q rs)); reflexivity.
Qed.

Lemma search_run (query : pyval) (n : Z) (t : trace) :
  search1 query n t
  = (Ok (results_of (provider t (request query n))),
     t ++ HttpGet base_url (request query n)
          :: match rbind (provider t (request query n)) parse_payload with
             | Ok _ => []
             | Raise e => [Stdout ("Search error: " ++ exn_msg e)%string]
             end).
Proof.
  unfold search, results_of, parse_payload, try_except, bind,
    requests_get_json, lift, ret, emit, rbind, request_for.
  destruct (provider t _) as [data |]; simpl.
  - destruct (py_get data "organic_results" (PList [])) as [o |]; simpl.
    + destruct (py_iter o) as [items |]; simpl.
      * destruct (organic_loop items []); simpl;
          now rewrite ?app_events.
      * now rewrite app_events.
    + now rewrite app_events.
  - now rewrite app_events.
Qed.

(** The loop over the queries never raises: it adds the lists of the
    queries, in query order, to [all_results], sends one request per
    query, in query order, and calls the model for nothing. *)
Lemma fanout_run (qs : list pyval) (acc : list SearchResult) (t : trace) :
  exists evs,
    fanout qs acc t = (Ok (acc ++ concat (lists_of qs t)), t ++ evs)
    /\ existsb is_generate evs = false
    /\ http_requests evs = map (fun query => request query 8) qs
    /\ List.length (lists_of qs t) = List.length qs.
Proof.
  revert acc t. induction qs as [| query rest IH]; intros acc t.
  - exists []. simpl. unfold ret. now rewrite !app_nil_r.
  - simpl. unfold bind. rewrite search_run.
    set (t' := t ++ HttpGet base_url (request query 8) :: _).
    destruct (IH (acc ++ results_of (provider t (request query 8))) t')
      as [evs [Hrun [Hg [Hh Hl]]]].
    rewrite Hrun. subst t'.
    eexists. rewrite <- !app_assoc. simpl. split; [reflexivity |].
    destruct (rbind (provider t (request query 8)) parse_payload);
      simpl; rewrite ?Hg, ?Hh, ?Hl; auto.
Qed.

(** What the [try] of [research_query] does, stage by stage. *)
Lemma steps_run (q : string) (t : trace) :
  exists qs evs,
    let queries := queries_for q (model t (expansion_prompt q)) in
    let t0 := t ++ [Generate (expansion_prompt q)] in
    let found := concat (lists_of qs t0) in
    let t1 := t0 ++ evs in
    py_iter queries = Ok qs
    /\ List.length qs <= 5
    /\ fanout qs [] t0 = (Ok found, t1)
    /\ existsb is_generate evs = false
    /\ http_requests evs = map (fun query => request query 8) qs
    /\ steps q t
       = match deduplicate found with
         | Raise e => (Raise e, t1)
         | Ok unique =>
             (Ok (mkOutcome
                    (answer_of q (model t1 (prompt_for q (limit 15 unique))))
                    (limit 15 unique) queries),
              t1 ++ [Generate (prompt_for q (limit 15 unique))])
         end.
Proof.
  destruct (queries_iterable q (model t (expansion_prompt q)))
    as [qs [Hit [Hlen Hle]]].
  destruct (fanout_run qs [] (t ++ [Generate (expansion_prompt q)]))
    as [evs [Hrun [Hg [Hh _]]]].
  exists qs, evs. simpl in Hrun. cbv zeta.
  repeat split; auto; try lia.
  unfold research_steps, bind. rewrite expand_run.
  unfold lift at 1. rewrite Hit. rewrite Hrun.
  unfold lift. destruct (deduplicate _) as [unique | e]; [| reflexivity].
  rewrite synthesize_run. reflexivity.
Qed.

Lemma run_steps (q : string) (t : trace) :
  run q t
  = match steps q t with
    | (Ok outcome, t') => (Ok outcome, t')
    | (Raise e, t') =>
        (Ok (mkOutcome (apology e) [] (PList [PStr q])), t')
    end.
Proof. reflexivity. Qed.

Lemma apology_nonempty (e : exn) : apology e <> EmptyString.
Proof. unfold apology. simpl. discriminate. Qed.

Lemma fallback_nonempty (q : string) : synthesis_fallback q <> EmptyString.
Proof. unfold synthesis_fallback. simpl. discriminate. Qed.

(** What [research_query] returns, stage by stage. *)
Lemma run_cases (q : string) (t : trace) :
  exists qs evs,
    let queries := queries_for q (model t (expansion_prompt q)) in
    let t0 := t ++ [Generate (expansion_prompt q)] in
    let found := concat (lists_of qs t0) in
    let t1 := t0 ++ evs in
    py_iter queries = Ok qs
    /\ existsb is_generate evs = false
    /\ ((exists e, deduplicate found = Raise e
                   /\ steps q t = (Raise e, t1)
                   /\ run q t
                      = (Ok (mkOutcome (apology e) [] (PList [PStr q])), t1))
        \/ (exists unique,
              deduplicate found = Ok unique
              /\ steps q t
                 = (Ok (mkOutcome
                          (answer_of q
                             (model t1 (prompt_for q (limit 15 unique))))
                          (limit 15 unique) queries),
                    t1 ++ [Generate (prompt_for q (limit 15 unique))])
              /\ run q t = steps q t)).
Proof.
  destruct (steps_run q t) as [qs [evs H]]. cbv zeta in H.
  destruct H as [Hit [_ [_ [Hg [_ Hs]]]]].
  exists qs, evs. cbv zeta. repeat split; auto.
  rewrite run_steps, Hs.
  destruct (deduplicate _) as [unique | e]; [right | left]; eauto.
Qed.

Lemma all_fail_nothing_found :
  (forall t0 params, exists e, provider t0 params = Raise e) ->
  forall qs t, concat (lists_of qs t) = [].
Proof.
  intros Hf qs. induction qs as [| query rest IH]; intros t; simpl.
  - reflexivity.
  - rewrite search_run. simpl.
    destruct (Hf t (request query 8)) as [e He].
    unfold results_of. rewrite He. simpl. apply IH.
Qed.

(** C1: [research_query] always returns an outcome.  When an exception
    leaves the stages of its [try], the outcome holds the apology built
    around the text of the exception, no sources, and the user's query as
    the only query used.  In the model the one exception that leaves the
    stages is the refusal to hash a link. *)
Theorem research_query_total (q : string) (t : trace) :
  (exists outcome t', run q t = (Ok outcome, t'))
  /\ (forall e t', steps q t = (Raise e, t') ->
        run q t = (Ok (mkOutcome (apology e) [] (PList [PStr q])), t')
        /\ apology e
           = ("I apologize, but I encountered an error while researching your query: "
              ++ exn_msg e
              ++ ". Please try again or rephrase your question.")%string
        /\ exists r, py_hash (link r) = Raise e).
Proof.
  split.
  - destruct (run_cases q t) as [qs [evs H]]. cbv zeta in H.
    destruct H as [_ [_ [[e [_ [_ Hr]]] | [u [_ [Hs Hr]]]]]].
    + eauto.
    + rewrite Hr, Hs. eauto.
  - intros e t' Hs. rewrite run_steps, Hs.
    split; [reflexivity | split; [reflexivity |]].
    destruct (run_cases q t) as [qs [evs H]]. cbv zeta in H.
    destruct H as [_ [_ [[e' [Hd [Hs' _]]] | [u [_ [Hs' _]]]]]];
      rewrite Hs in Hs'; inversion Hs'; subst.
    apply dedup_loop_raise in Hd.
    destruct Hd as [_ [r [_ [_ [_ Hr]]]]]. eauto.
Qed.

Lemma firstn_nil_inv {A} (n : nat) (l : list A) :
  List.length (firstn (S n) l) = 0 -> l = [].
Proof. destruct l; simpl; [reflexivity | discriminate]. Qed.

Lemma str_to_empty_inv (n : nat) (s : string) :
  String.length (str_to (S n) s) = 0 -> s = EmptyString.
Proof. destruct s; simpl; [reflexivity | discriminate]. Qed.

(** The expander returns something empty only for a reply that decodes to
    an empty list or an empty string. *)
Lemma queries_empty_inv (q : string) (reply : result string) :
  py_len (queries_for q reply) = 0 ->
  exists text queries_text,
    reply = Ok text
    /\ strip_fence (strip text) = Ok queries_text
    /\ (json_loads queries_text = Ok (PList [])
        \/ json_loads queries_text = Ok (PStr EmptyString)).
Proof.
  unfold queries_of, decode_reply, rbind.
  destruct reply as [text |]; [| discriminate].
  destruct (strip_fence (strip text)) as [qt |] eqn:Hq; [| discriminate].
  destruct (json_loads qt) as [w |] eqn:Hw; [| discriminate].
  destruct (slice_to 5 w) as [v |] eqn:Hv; [| discriminate].
  intro Hl. exists text, qt. split; [reflexivity | split; [exact Hq |]].
  apply slice_to_len in Hv.
  destruct Hv as [_ [[l [-> ->]] | [s [-> ->]]]]; cbn [py_len] in Hl.
  - left. rewrite Hw. now rewrite (firstn_nil_inv _ _ Hl).
  - right. rewrite Hw. now rewrite (str_to_empty_inv _ _ Hl).
Qed.

(** C2, as amended: [research_query] always returns an outcome.  Its answer
    is empty only when the model's reply to the synthesis prompt is blank,
    and its list of queries used is empty only when the expansion reply
    decodes to an empty list or an empty string.  When every call of the
    model fails, the answer is not empty and the queries used are the
    user's query alone; when the provider fails on every request as well,
    the answer is the synthesis fallback and there are no sources. *)
Theorem research_query_nonempty_unless (q : string) (t : trace) :
  exists outcome t',
    run q t = (Ok outcome, t')
    /\ (response outcome = EmptyString ->
        exists t1 text,
          model t1 (prompt_for q (sources outcome)) = Ok text
          /\ strip text = EmptyString)
    /\ (py_len (search_queries_used outcome) = 0 ->
        exists text queries_text,
          model t (expansion_prompt q) = Ok text
          /\ strip_fence (strip text) = Ok queries_text
          /\ (json_loads queries_text = Ok (PList [])
              \/ json_loads queries_text = Ok (PStr EmptyString)))
    /\ ((forall t0 prompt, exists e, model t0 prompt = Raise e) ->
        response outcome <> EmptyString
        /\ search_queries_used outcome = PList [PStr q]
        /\ ((forall t0 params, exists e, provider t0 params = Raise e) ->
            response outcome = synthesis_fallback q
            /\ sources outcome = [])).
Proof.
  destruct (run_cases q t) as [qs [evs H]]. cbv zeta in H.
  destruct H as [Hit [_ [[e [Hd [_ Hr]]] | [u [Hd [Hs Hr]]]]]].
  - (* the handler of research_query ran *)
    eexists. eexists. split; [exact Hr |].
    cbn [response sources search_queries_used].
    split; [| split; [| intro Hm; split; [| split]]].
    + intro H. now apply apology_nonempty in H.
    + discriminate.
    + apply apology_nonempty.
    + reflexivity.
    + intro Hp. rewrite (all_fail_nothing_found Hp) in Hd. discriminate.
  - rewrite Hs in Hr.
    eexists. eexists. split; [exact Hr |].
    cbn [response sources search_queries_used].
    split; [| split; [| intro Hm; split; [| split]]].
    + unfold answer_of.
      destruct (model _ (prompt_for q (limit 15 u))) as [text |] eqn:Hr'.
      * intro Hb. eexists. exists text. split; [exact Hr' | exact Hb].
      * intro Hb. now apply fallback_nonempty in Hb.
    + intro Hl. now apply queries_empty_inv in Hl.
    + unfold answer_of.
      destruct (Hm ((t ++ [Generate (expansion_prompt q)]) ++ evs)
                  (prompt_for q (limit 15 u))) as [e ->].
      apply fallback_nonempty.
    + destruct (Hm t (expansion_prompt q)) as [e ->]. reflexivity.
    + intro Hp. rewrite (all_fail_nothing_found Hp) in Hd.
      inversion Hd; subst. split; [| reflexivity].
      unfold answer_of.
      destruct (Hm ((t ++ [Generate (expansion_prompt q)]) ++ evs)
                  (prompt_for q (limit 15 []))) as [e ->].
      reflexivity.
Qed.

(** C3, as amended: [generate_search_queries] never raises and returns at
    most five entries.  When the call of the model fails, when the reply
    cannot be decoded, or when it decodes to something that cannot be
    sliced (null, a boolean, a number, an object), the result is the
    user's query alone.  A decoded list is returned cut to its first five
    entries, whatever they are and however few; a decoded string is
    returned cut to its first five characters. *)
Theorem expansion_at_most_five (q : string) (t : trace) :
  (exists queries,
     expand q t = (Ok queries, t ++ [Generate (expansion_prompt q)])
     /\ py_len queries <= 5)
  /\ (forall e, model t (expansion_prompt q) = Raise e ->
        expand q t
        = (Ok (PList [PStr q]), t ++ [Generate (expansion_prompt q)]))
  /\ (forall text, model t (expansion_prompt q) = Ok text ->
        exists queries_text,
          strip_fence (strip text) = Ok queries_text
          /\ expand q t
             = (Ok match json_loads queries_text with
                   | Ok (PList l) => PList (firstn 5 l)
                   | Ok (PStr s) => PStr (str_to 5 s)
                   | _ => PList [PStr q]
                   end,
                t ++ [Generate (expansion_prompt q)])).
Proof.
  rewrite expand_run. repeat split.
  - eexists. split; [reflexivity |].
    destruct (queries_iterable q (model t (expansion_prompt q)))
      as [qs [_ [_ Hle]]]. exact Hle.
  - intros e ->. reflexivity.
  - intros text ->. destruct (strip_fence_total (strip text)) as [qt Hq].
    exists qt. split; [exact Hq |].
    unfold queries_of, decode_reply, rbind. rewrite Hq.
    destruct (json_loads qt) as [[| b | z | s | l | kv] |]; reflexivity.
Qed.


(** The loop that writes the sources adds the listing of the results to
    the text it was given. *)
Lemma sources_loop_listing (i : nat) (rs : list SearchResult) (acc : string) :
  sources_loop py_repr i rs acc = (acc ++ listing py_repr i rs)%string.
Proof.
  revert i acc. induction rs as [| r rest IH]; intros i acc; simpl.
  - now rewrite str_app_nil_r.
  - rewrite IH. now rewrite str_app_assoc.
Qed.

(** The entry of the result at position [k] is in the listing, with the
    number [i + k]. *)
Lemma listing_entry (i k : nat) (rs : list SearchResult) (r : SearchResult) :
  nth_error rs k = Some r ->
  occurs_in (source_entry py_repr (i + k) r) (listing py_repr i rs).
Proof.
  revert i k. induction rs as [| x rest IH]; intros i [| k] H; simpl in H;
    try discriminate.
  - inversion H; subst. exists EmptyString, (listing py_repr (S i) rest).
    rewrite Nat.add_0_r. reflexivity.
  - destruct (IH (S i) k H) as [before [after Hl]].
    exists (source_entry py_repr i x ++ before)%string, after.
    cbn [listing]. rewrite Hl, str_app_assoc.
    now replace (i + S k) with (S i + k) by lia.
Qed.

Lemma occurs_in_frame (s before text after : string) :
  occurs_in s text -> occurs_in s (before ++ text ++ after).
Proof.
  intros [b [a ->]]. exists (before ++ b)%string, (a ++ after)%string.
  now rewrite !str_app_assoc.
Qed.

Lemma frame_here (s after : string) :
  (s ++ after = EmptyString ++ s ++ after)%string.
Proof. reflexivity. Qed.

Lemma frame_step (a text before s after : string) :
  (text = before ++ s ++ after ->
   a ++ text = (a ++ before) ++ s ++ after)%string.
Proof. intros ->. now rewrite str_app_assoc. Qed.

(** Finds [s] in a text that is written as [a1 ++ (a2 ++ ... (s ++ rest))]. *)
Ltac find_frame := repeat first [apply frame_here | eapply frame_step].

(** The prompt is a frame, fixed by the user's query, around the listing
    of the first ten results. *)
Lemma prompt_frame (q : string) :
  exists head tail,
    (forall rs, prompt_for q rs
                = (head ++ listing py_repr 1 (firstn 10 rs) ++ tail)%string)
    /\ occurs_in ("User Query: " ++ dq ++ q ++ dq) head
    /\ occurs_in "Search Results:" head
    /\ occurs_in "Write a comprehensive response (200-400 words):" tail.
Proof.
  eexists. eexists. split; [| split; [| split]].
  - intro rs. unfold synthesis_prompt. cbv zeta.
    rewrite sources_loop_listing.
    change (EmptyString ++ listing py_repr 1 (firstn 10 rs))%string
      with (listing py_repr 1 (firstn 10 rs)).
    unfold block. cbn [String.concat].
    rewrite (str_app_assoc ind (listing py_repr 1 (firstn 10 rs))).
    find_frame.
  - eexists. eexists.
    rewrite (str_app_assoc ind ("User Query: " ++ dq ++ q ++ dq)).
    find_frame.
  - eexists. eexists.
    rewrite (str_app_assoc ind "Search Results:").
    find_frame.
  - eexists. eexists.
    rewrite (str_app_assoc
               ind "Write a comprehensive response (200-400 words):").
    find_frame.
Qed.

(** C8: the synthesis prompt is a frame, fixed by the user's query, around
    the numbered entries of the first ten results at most: the result at
    position [k < 10] is written as entry [k + 1], with its title, its
    snippet and its link, and the prompt is the same for two result lists
    with the same first ten results.  [synthesize_research_response] never
    raises and calls the model once; when that call fails it returns the
    fallback text, which holds the user's query between quotes and sends
    the reader to the sources. *)
Theorem synthesizer_prompt_and_fallback (q : string)
  (results : list SearchResult) (t : trace) :
  (forall results', firstn 10 results' = firstn 10 results ->
      prompt_for q results' = prompt_for q results)
  /\ prompt_for q results = prompt_for q (firstn 10 results)
  /\ List.length (firstn 10 results) <= 10
  /\ (exists answer,
        synthesize q results t
        = (Ok answer, t ++ [Generate (prompt_for q results)]))
  /\ (forall e, model t (prompt_for q results) = Raise e ->
        synthesize q results t
        = (Ok (synthesis_fallback q), t ++ [Generate (prompt_for q results)]))
  /\ synthesis_fallback q
     = ("I found several relevant sources for your query about '" ++ q
        ++ "'. Please review the sources below for detailed information.")%string
  /\ occurs_in q (synthesis_fallback q)
  /\ occurs_in "Please review the sources below" (synthesis_fallback q)
  /\ (exists head tail,
        (forall rs, prompt_for q rs
                    = (head ++ listing py_repr 1 (firstn 10 rs) ++ tail)%string)
        /\ occurs_in ("User Query: " ++ dq ++ q ++ dq) head
        /\ occurs_in "Search Results:" head
        /\ occurs_in "Write a comprehensive response (200-400 words):" tail)
  /\ (forall k r, nth_error results k = Some r -> k < 10 ->
        occurs_in
          (str_nat (S k) ++ ". " ++ py_str py_repr (title r) ++ nl
           ++ "   " ++ py_str py_repr (snippet r) ++ nl
           ++ "   URL: " ++ py_str py_repr (link r) ++ nl ++ nl)
          (prompt_for q results))
  /\ (forall k ti li sn so da,
        nth_error results k = Some (mkResult (PStr ti) (PStr li) (PStr sn) so da) ->
        k < 10 ->
        occurs_in
          (str_nat (S k) ++ ". " ++ ti ++ nl
           ++ "   " ++ sn ++ nl
           ++ "   URL: " ++ li ++ nl ++ nl)
          (prompt_for q results)).
Proof.
  assert (forall k r, nth_error results k = Some r -> k < 10 ->
            occurs_in (source_entry py_repr (S k) r) (prompt_for q results))
    as Hentry.
  { intros k r Hk Hlt.
    destruct (prompt_frame q) as [head [tail [Hp _]]]. rewrite Hp.
    apply occurs_in_frame. apply (listing_entry 1 k).
    rewrite nth_error_firstn.
    apply Nat.ltb_lt in Hlt. now rewrite Hlt. }
  split; [| split; [| split; [| split; [| split; [| split; [| split;
    [| split; [| split; [| split]]]]]]]]].
  - intros results' H. unfold synthesis_prompt. now rewrite H.
  - unfold synthesis_prompt. now rewrite firstn_firstn.
  - apply firstn_le_length.
  - rewrite synthesize_run. eauto.
  - intros e H. rewrite synthesize_run, H. reflexivity.
  - reflexivity.
  - eexists. eexists. reflexivity.
  - exists ("I found several relevant sources for your query about '"
            ++ q ++ "'. ")%string,
           " for detailed information."%string.
    unfold synthesis_fallback.
    rewrite !str_app_assoc. reflexivity.
  - apply prompt_frame.
  - intros k r Hk Hlt. exact (Hentry k r Hk Hlt).
  - intros k ti li sn so da Hk Hlt. exact (Hentry k _ Hk Hlt).
Qed.

(** C10: when the stages of [research_query] complete, the model was called
    twice, first for the expansion and last for the synthesis, with
    nothing but search requests and their error lines in between; the
    answer returned is the synthesizer's, for the sources returned.  When
    every search fails the stages still complete: the synthesizer is
    called for no results and its answer is returned with no sources. *)
Theorem synthesizer_called_once (q : string) (t : trace) :
  (forall outcome t', steps q t = (Ok outcome, t') ->
      exists evs,
        t' = t ++ Generate (expansion_prompt q)
               :: evs ++ [Generate (prompt_for q (sources outcome))]
        /\ existsb is_generate evs = false
        /\ response outcome
           = answer_of q
               (model (t ++ Generate (expansion_prompt q) :: evs)
                  (prompt_for q (sources outcome)))
        /\ run q t = (Ok outcome, t'))
  /\ ((forall t0 params, exists e, provider t0 params = Raise e) ->
      exists evs,
        existsb is_generate evs = false
        /\ steps q t
           = (Ok (mkOutcome
                    (answer_of q
                       (model (t ++ Generate (expansion_prompt q) :: evs)
                          (prompt_for q [])))
                    []
                    (queries_for q (model t (expansion_prompt q)))),
              t ++ Generate (expansion_prompt q)
                :: evs ++ [Generate (prompt_for q [])])
        /\ run q t = steps q t).
Proof.
  destruct (run_cases q t) as [qs [evs H]]. cbv zeta in H.
  destruct H as [_ [Hg [[e [Hd [Hs Hr]]] | [u [Hd [Hs Hr]]]]]].
  - split.
    + intros outcome t' Ho. rewrite Ho in Hs. discriminate.
    + intro Hp. rewrite (all_fail_nothing_found Hp) in Hd. discriminate.
  - rewrite <- !app_assoc in Hs. cbn [app] in Hs. split.
    + intros outcome t' Ho. rewrite Ho in Hs. inversion Hs; subst.
      exists evs. cbn [sources response]. repeat split; auto.
      rewrite Hr. exact Ho.
    + intro Hp. rewrite (all_fail_nothing_found Hp) in Hd.
      inversion Hd; subst. exists evs. repeat split; auto.
Qed.

End Pipeline.


(** * The properties at concrete runs *)

(** A run in which the model is down and the provider's payload holds a
    list as a link: the stages raise and the handler answers. *)
Lemma research_query_total_witness :
  steps_demo model_down (provider_table [("q", Ok payload_list_link)]) "q"
  = (Raise unhashable_list,
     snd (steps_demo model_down
            (provider_table [("q", Ok payload_list_link)]) "q"))
  /\ fst (research_demo model_down
            (provider_table [("q", Ok payload_list_link)]) "q")
     = Ok (mkOutcome (apology unhashable_list) [] (PList [PStr "q"])).
Proof.
  assert (steps_demo model_down
            (provider_table [("q", Ok payload_list_link)]) "q"
          = (Raise unhashable_list,
             snd (steps_demo model_down
                    (provider_table [("q", Ok payload_list_link)]) "q")))
    as H by (vm_compute; reflexivity).
  split; [exact H |].
  unfold research_demo.
  rewrite (proj1 (proj2 (research_query_total (PStr "key") model_down
                           (provider_table [("q", Ok payload_list_link)])
                           json_fragment repr_elided "q" []) _ _ H)).
  reflexivity.
Defined.

(** C2, the claim as stated fails: the model answers the expansion with an
    empty array and the synthesis with blanks, the provider is down; the
    outcome has an empty answer and no query used. *)
Lemma research_query_empty_outcome :
  fst (research_demo (model_replies (Ok "[]") (Ok "  ")) provider_down "q")
  = Ok (mkOutcome EmptyString [] (PList [])).
Proof. vm_compute. reflexivity. Qed.

(** A run in which every call of the model and of the provider fails. *)
Lemma research_query_nonempty_unless_witness :
  (forall t0 prompt, exists e, model_down t0 prompt = Raise e)
  /\ (forall t0 params, exists e, provider_down t0 params = Raise e)
  /\ exists outcome,
       fst (research_demo model_down provider_down "q") = Ok outcome
       /\ response outcome <> EmptyString
       /\ search_queries_used outcome = PList [PStr "q"]
       /\ response outcome = synthesis_fallback "q"
       /\ sources outcome = [].
Proof.
  assert (forall t0 prompt, exists e, model_down t0 prompt = Raise e) as Hm
    by (intros; eexists; reflexivity).
  assert (forall t0 params, exists e, provider_down t0 params = Raise e) as Hp
    by (intros; eexists; reflexivity).
  split; [exact Hm | split; [exact Hp |]].
  destruct (research_query_nonempty_unless (PStr "key") model_down
              provider_down json_fragment repr_elided "q" [])
    as [outcome [t' [Hr [_ [_ Hc]]]]].
  destruct (Hc Hm) as [Hne [Hq Hs]]. destruct (Hs Hp) as [Hf Hn].
  exists outcome. unfold research_demo. rewrite Hr. simpl. auto.
Defined.

(** C3, the claim as stated fails: a reply that is an empty array gives no
    query at all, and a reply that is an array of numbers is returned as it
    is, not replaced by the user's query. *)
Lemma expansion_returns_what_it_decodes :
  fst (expand_demo (model_replies (Ok "[]") (Ok "")) "q") = Ok (PList [])
  /\ fst (expand_demo (model_replies (Ok "[1, 2]") (Ok "")) "q")
     = Ok (PList [PInt 1; PInt 2]).
Proof. split; vm_compute; reflexivity. Qed.

(** A model that is down, and a model that answers with six fenced
    queries. *)
Lemma expansion_at_most_five_witness :
  (model_down [] (expansion_prompt "q")
   = Raise (Exn ExternalError "model unreachable")
   /\ expand_demo model_down "q"
      = (Ok (PList [PStr "q"]), [Generate (expansion_prompt "q")]))
  /\ (model_replies (Ok reply_six) (Ok "") [] (expansion_prompt "q")
      = Ok reply_six
      /\ fst (expand_demo (model_replies (Ok reply_six) (Ok "")) "q")
         = Ok (PList [PStr "a"; PStr "b"; PStr "c"; PStr "d"; PStr "e"])).
Proof.
  split.
  - split; [reflexivity |].
    apply (proj1 (proj2 (expansion_at_most_five model_down json_fragment
                           "q" []))
             (Exn ExternalError "model unreachable")).
    reflexivity.
  - split; [reflexivity |].
    destruct (proj2 (proj2 (expansion_at_most_five
                              (model_replies (Ok reply_six) (Ok ""))
                              json_fragment "q" []))
                reply_six eq_refl) as [qt [Hq Hr]].
    unfold expand_demo. rewrite Hr. cbn [fst].
    vm_compute in Hq. inversion Hq; subst qt. vm_compute. reflexivity.
Defined.

(** Two lists with string links: the loop returns. *)
Lemma dedup_unique_first_occurrence_witness :
  (forall r, In r (concat demo_lists) -> exists s, link r = PStr s)
  /\ exists out, deduplicate (concat demo_lists) = Ok out.
Proof.
  assert (forall r, In r (concat demo_lists) -> exists s, link r = PStr s)
    as H.
  { intros r Hr. simpl in Hr.
    repeat (destruct Hr as [<- | Hr]; [eexists; reflexivity |]).
    contradiction. }
  split; [exact H |].
  exact (proj2 (dedup_unique_first_occurrence demo_lists) H).
Defined.

(** The output for [demo_lists], given again as one list. *)
Lemma deduplicate_idempotent_witness :
  deduplicate (concat demo_lists) = Ok demo_unique
  /\ deduplicate (concat [demo_unique]) = Ok demo_unique.
Proof.
  split; [reflexivity |].
  apply (deduplicate_idempotent demo_lists). reflexivity.
Defined.

(** The second of the two results kept of three. *)
Lemma limit_is_prefix_witness :
  1 < List.length (limit 2 demo_unique)
  /\ nth_error (limit 2 demo_unique) 1 = nth_error demo_unique 1.
Proof.
  assert (1 < List.length (limit 2 demo_unique)) as H by (simpl; lia).
  split; [exact H |].
  exact (proj2 (proj2 (proj2 (limit_is_prefix 2 demo_unique))) 1 H).
Defined.



(** Twelve results and their first ten give one prompt; the second of three
    results is written as entry 2; with the model down the answer is the
    fallback. *)
Lemma synthesizer_prompt_and_fallback_witness :
  (firstn 10 (repeat (found "A" "u") 12) = firstn 10 (repeat (found "A" "u") 10)
   /\ synthesis_prompt repr_elided "q" (repeat (found "A" "u") 12)
      = synthesis_prompt repr_elided "q" (repeat (found "A" "u") 10))
  /\ (model_down [] (synthesis_prompt repr_elided "q" demo_unique)
      = Raise (Exn ExternalError "model unreachable")
      /\ synthesize_research_response model_down repr_elided "q" demo_unique []
         = (Ok (synthesis_fallback "q"),
            [Generate (synthesis_prompt repr_elided "q" demo_unique)]))
  /\ (nth_error demo_unique 1 = Some (found "B" "u2")
      /\ 1 < 10
      /\ occurs_in
           ("2. B" ++ nl ++ "   No description available" ++ nl
            ++ "   URL: u2" ++ nl ++ nl)
           (synthesis_prompt repr_elided "q" demo_unique)).
Proof.
  split; [| split]; (split; [reflexivity |]).
  - apply (proj1 (synthesizer_prompt_and_fallback model_down repr_elided "q"
                    (repeat (found "A" "u") 10) [])).
    reflexivity.
  - apply (proj1 (proj2 (proj2 (proj2 (proj2
             (synthesizer_prompt_and_fallback model_down repr_elided "q"
                demo_unique [])))))
             (Exn ExternalError "model unreachable")).
    reflexivity.
  - split; [lia |].
    apply (proj2 (proj2 (proj2 (proj2 (proj2 (proj2 (proj2 (proj2 (proj2
             (proj2
                (synthesizer_prompt_and_fallback model_down repr_elided "q"
                   demo_unique []))))))))))
             1 "B"%string "u2"%string "No description available"%string
             (PStr EmptyString) (PStr EmptyString)).
    + reflexivity.
    + lia.
Defined.

(** Two queries and a provider that is down: the stages complete, the
    synthesizer is called for no results and its answer is returned. *)
Lemma synthesizer_called_once_witness :
  (forall t0 params, exists e, provider_down t0 params = Raise e)
  /\ exists outcome t',
       steps_demo (model_two_queries " Nothing found. ") provider_down "q"
       = (Ok outcome, t')
       /\ research_demo (model_two_queries " Nothing found. ") provider_down "q"
          = (Ok outcome, t')
       /\ sources outcome = []
       /\ response outcome = "Nothing found."
       /\ exists evs,
            existsb is_generate evs = false
            /\ t' = [] ++ Generate (expansion_prompt "q")
                      :: evs
                      ++ [Generate (synthesis_prompt repr_elided "q" [])].
Proof.
  assert (forall t0 params, exists e, provider_down t0 params = Raise e) as Hp
    by (intros; eexists; reflexivity).
  split; [exact Hp |].
  pose proof (synthesizer_called_once (PStr "key")
                (model_two_queries " Nothing found. ") provider_down
                json_fragment repr_elided "q" []) as [Hone Hempty].
  destruct (Hempty Hp) as [evs [Hg [Hs _]]].
  destruct (Hone _ _ Hs) as [evs' [_ [_ [_ Hr]]]].
  eexists. eexists. split; [exact Hs |].
  split; [exact Hr |]. split; [reflexivity |]. split; [reflexivity |].
  exists evs. split; [exact Hg | reflexivity].
Defined.

(** ** The scenarios of the specification *)

(** Two expanded queries, two results each, all links distinct: four sources
    in query order. *)
Example scenario_distinct_links :
  fst (research_demo
         (model_replies
            (Ok ("[" ++ dq ++ "climate policy 2024" ++ dq ++ ", "
                 ++ dq ++ "2024 climate regulations" ++ dq ++ "]")%string)
            (Ok "Summary."))
         (provider_table
            [("climate policy 2024", Ok (payload [hit "A" "u1"; hit "B" "u2"]));
             ("2024 climate regulations",
              Ok (payload [hit "C" "u3"; hit "D" "u4"]))])
         "climate policy 2024")
  = Ok (mkOutcome "Summary."
          [found "A" "u1"; found "B" "u2"; found "C" "u3"; found "D" "u4"]
          (PList [PStr "climate policy 2024"; PStr "2024 climate regulations"])).
Proof. vm_compute. reflexivity. Qed.

(** Two queries whose results share a link: it is kept once, where it came
    first. *)
Example scenario_shared_link :
  fst (research_demo (model_two_queries "Summary.")
         (provider_table
            [("a", Ok (payload [hit "A" "u1"; hit "B" "u2"]));
             ("b", Ok (payload [hit "B again" "u2"; hit "C" "u3"]))])
         "q")
  = Ok (mkOutcome "Summary." demo_unique (PList [PStr "a"; PStr "b"])).
Proof. vm_compute. reflexivity. Qed.

(** The model is down for expansion and synthesis: the user's query is
    searched and the fallback answer comes with what was found. *)
Example scenario_model_down :
  fst (research_demo model_down
         (provider_table [("q", Ok (payload [hit "A" "u1"; hit "B" "u2"]))])
         "q")
  = Ok (mkOutcome (synthesis_fallback "q")
          [found "A" "u1"; found "B" "u2"] (PList [PStr "q"])).
Proof. vm_compute. reflexivity. Qed.

(** A reply that decodes to a string is iterated character by character. *)
Example scenario_string_reply :
  http_requests
    (snd (research_demo
            (model_replies (Ok (dq ++ "hi" ++ dq)%string) (Ok "Summary."))
            provider_down "q"))
  = [request_for (PStr "key") (PStr "h") 8;
     request_for (PStr "key") (PStr "i") 8].
Proof. vm_compute. reflexivity. Qed.

(** * Further properties of the pipeline *)

Lemma subseq_refl {A} (l : list A) : subseq l l.
Proof. induction l; constructor; assumption. Qed.

Lemma subseq_In {A} (a b : list A) (x : A) : subseq a b -> In x a -> In x b.
Proof.
  induction 1 as [| y a b _ IH | y a b _ IH]; simpl; auto.
  intros [-> | H]; auto.
Qed.

Lemma first_seen_subseq (rs : list SearchResult) (seen : pyset) :
  subseq (first_seen rs seen) rs.
Proof.
  revert seen. induction rs as [| r rest IH]; intros seen; simpl.
  - constructor.
  - destruct (negb (set_mem (key_of r) seen) && truthy (link r));
      constructor; apply IH.
Qed.

(** X1: the loop that removes duplicates only leaves results out: its output
    is its input with some results dropped, in the same order, and every
    input result with a true link has a result with an equal link in the
    output. *)
Theorem deduplicate_keeps_order_and_links (all_results out : list SearchResult) :
  deduplicate all_results = Ok out ->
  subseq out all_results
  /\ (forall r, In r all_results -> truthy (link r) = true ->
        exists x, In x out /\ same_link r x = true)
  /\ List.length out <= List.length all_results.
Proof.
  intro H. apply deduplicate_first_seen in H. subst out.
  split; [apply first_seen_subseq | split].
  - intros r Hr Ht.
    assert (In (key_of r) (map key_of (first_seen all_results []))) as Hk.
    { apply first_seen_keys. split; [intros [] |]. exists r. auto. }
    apply in_map_iff in Hk. destruct Hk as [x [Hx Hin]].
    exists x. split; auto. unfold same_link. now apply hkey_eqb_eq.
  - generalize (@nil hkey). induction all_results as [| r rest IH];
      intros seen; simpl; [lia |].
    destruct (negb (set_mem (key_of r) seen) && truthy (link r)); simpl.
    + specialize (IH (key_of r :: seen)). lia.
    + specialize (IH seen). lia.
Qed.

Lemma deduplicate_keeps_order_and_links_witness :
  deduplicate (concat demo_lists) = Ok demo_unique
  /\ subseq demo_unique (concat demo_lists).
Proof.
  split; [reflexivity |].
  apply (deduplicate_keeps_order_and_links (concat demo_lists) demo_unique).
  reflexivity.
Defined.

Lemma subseq_nil_l {A} (l : list A) : subseq [] l.
Proof. induction l; constructor; assumption. Qed.

Lemma subseq_trans {A} (a b c : list A) :
  subseq a b -> subseq b c -> subseq a c.
Proof.
  intros Hab Hbc. revert a Hab.
  induction Hbc as [| x b c _ IH | x b c _ IH]; intros a Hab.
  - exact Hab.
  - constructor. now apply IH.
  - inversion Hab; subst; constructor; now apply IH.
Qed.

Lemma subseq_firstn {A} (n : nat) (l : list A) : subseq (firstn n l) l.
Proof.
  revert n. induction l as [| x l IH]; intros [| n]; simpl.
  - constructor.
  - constructor.
  - apply subseq_nil_l.
  - apply subseq_keep. apply IH.
Qed.

Lemma NoDup_firstn {A} (n : nat) (l : list A) : NoDup l -> NoDup (firstn n l).
Proof.
  intro H. rewrite <- (firstn_skipn n l) in H.
  now apply NoDup_app_remove_r in H.
Qed.

Lemma In_firstn {A} (n : nat) (l : list A) (x : A) :
  In x (firstn n l) -> In x l.
Proof.
  intro H. rewrite <- (firstn_skipn n l). apply in_or_app. now left.
Qed.

Lemma http_requests_app (a b : list event) :
  http_requests (a ++ b) = http_requests a ++ http_requests b.
Proof.
  induction a as [| [p | u p | l] a IH]; simpl; auto. now rewrite IH.
Qed.

Lemma filter_generate_none (evs : list event) :
  existsb is_generate evs = false -> filter is_generate evs = [].
Proof.
  induction evs as [| e evs IH]; simpl; [reflexivity |].
  destruct (is_generate e); simpl; [discriminate | exact IH].
Qed.

Section PipelineMore.

Variable api_key : pyval.
Variable model : trace -> string -> result string.
Variable provider : trace -> search_params -> result pyval.
Variable json_loads : string -> result pyval.
Variable py_repr : pyval -> string.

Local Abbreviation queries_for := (queries_of json_loads).
Local Abbreviation prompt_for := (synthesis_prompt py_repr).
Local Abbreviation request := (request_for api_key).
Local Abbreviation lists_of := (per_query_results api_key provider).
Local Abbreviation steps :=
  (research_steps api_key model provider json_loads py_repr).
Local Abbreviation run :=
  (research_query api_key model provider json_loads py_repr).

(** X2: whatever the model and the provider do, the sources of the outcome
    are at most 15, their links are true and pairwise distinct, and each of
    them was returned by one of the searches of the run, for one of the
    queries the expander gave. *)
Theorem sources_bounded_distinct_found (q : string) (t : trace) :
  exists outcome t' qs,
    run q t = (Ok outcome, t')
    /\ py_iter (queries_for q (model t (expansion_prompt q))) = Ok qs
    /\ List.length (sources outcome) <= 15
    /\ NoDup (map link (sources outcome))
    /\ Forall (fun r => truthy (link r) = true) (sources outcome)
    /\ subseq (sources outcome)
         (concat (lists_of qs (t ++ [Generate (expansion_prompt q)]))).
Proof.
  destruct (run_cases api_key model provider json_loads py_repr q t)
    as [qs [evs H]]. cbv zeta in H.
  destruct H as [Hit [_ [[e [_ [_ Hr]]] | [u [Hd [Hs Hr]]]]]].
  - eexists. eexists. exists qs. split; [exact Hr |]. split; [exact Hit |].
    cbn [sources]. split; [simpl; lia | split; [constructor | split]].
    + constructor.
    + apply subseq_nil_l.
  - rewrite Hs in Hr. eexists. eexists. exists qs.
    split; [exact Hr |]. split; [exact Hit |]. cbn [sources].
    pose proof (deduplicate_first_seen _ _ Hd) as Hu.
    split; [apply firstn_le_length | split; [| split]].
    + unfold limit. rewrite <- firstn_map. apply NoDup_firstn.
      assert (map key_of u
              = map (fun v => match py_hash v with
                              | Ok k => k
                              | Raise _ => KNone
                              end) (map link u)) as Hm
        by (rewrite map_map; reflexivity).
      pose proof (first_seen_NoDup
                    (concat (lists_of qs (t ++ [Generate (expansion_prompt q)])))
                    []) as Hn.
      rewrite <- Hu, Hm in Hn. now apply NoDup_map_inv in Hn.
    + apply Forall_forall. intros r Hr'. apply In_firstn in Hr'.
      rewrite Hu in Hr'. now apply first_seen_In in Hr'.
    + unfold limit. apply (subseq_trans _ u _ (subseq_firstn 15 u)).
      rewrite Hu. apply first_seen_subseq.
Qed.

(** X3: a run calls the model first, for the expansion; then sends one
    request per query the expander gave, in their order and at most five,
    each for 8 results from the google engine with safe search and the
    configured key; and calls the model once more, last, exactly when the
    stages complete.  Nothing else reaches the model or the provider. *)
Theorem requests_follow_queries (q : string) (t : trace) :
  exists outcome qs evs last,
    run q t
    = (Ok outcome, t ++ Generate (expansion_prompt q) :: evs ++ last)
    /\ py_iter (queries_for q (model t (expansion_prompt q))) = Ok qs
    /\ List.length qs <= 5
    /\ filter is_generate evs = []
    /\ http_requests (Generate (expansion_prompt q) :: evs ++ last)
       = map (fun query => mkParams query api_key "google" 8 "active") qs
    /\ match steps q t with
       | (Ok _, _) => last = [Generate (prompt_for q (sources outcome))]
       | (Raise _, _) => last = []
       end.
Proof.
  destruct (steps_run api_key model provider json_loads py_repr q t)
    as [qs [evs H]]. cbv zeta in H.
  destruct H as [Hit [Hle [_ [Hg [Hh Hs]]]]].
  rewrite run_steps, Hs.
  destruct (deduplicate _) as [u | e].
  - exists (mkOutcome
              (answer_of q
                 (model ((t ++ [Generate (expansion_prompt q)]) ++ evs)
                    (prompt_for q (limit 15 u))))
              (limit 15 u) (queries_for q (model t (expansion_prompt q)))),
      qs, evs, [Generate (prompt_for q (limit 15 u))].
    split; [| split; [exact Hit | split; [exact Hle | split;
      [now apply filter_generate_none | split; [| reflexivity]]]]].
    + f_equal. rewrite <- !app_assoc. reflexivity.
    + cbn [http_requests]. rewrite http_requests_app, Hh.
      cbn [http_requests]. now rewrite app_nil_r.
  - exists (mkOutcome (apology e) [] (PList [PStr q])), qs, evs, [].
    split; [| split; [exact Hit | split; [exact Hle | split;
      [now apply filter_generate_none | split; [| reflexivity]]]]].
    + f_equal. rewrite <- !app_assoc. rewrite app_nil_r. reflexivity.
    + cbn [http_requests]. rewrite http_requests_app, Hh.
      cbn [http_requests]. now rewrite app_nil_r.
Qed.

End PipelineMore.

(** ** What [search] makes of a payload *)

Lemma organic_loop_dicts (items : list pyval) (acc : list SearchResult) :
  forallb is_dict items = true ->
  organic_loop items acc
  = Ok (acc ++ map (fun v => entry_of (entries_of v)) items).
Proof.
  revert acc. induction items as [| v rest IH]; intros acc H; simpl in *.
  - now rewrite app_nil_r.
  - apply andb_prop in H. destruct H as [Hv Hr].
    destruct v; try discriminate. simpl.
    rewrite (IH _ Hr). now rewrite <- app_assoc.
Qed.

Lemma organic_loop_not_dict (items : list pyval) (acc : list SearchResult) :
  forallb is_dict items = false ->
  exists e, organic_loop items acc = Raise e /\ exn_cls e = AttributeError.
Proof.
  revert acc. induction items as [| v rest IH]; intros acc H; simpl in *.
  - discriminate.
  - destruct v; simpl in *; eauto.
Qed.

(** X4: when the provider answers with an object whose organic results are a
    list, [search] returns one result per entry, in order, each with the
    source's placeholders for the keys the entry lacks, provided every entry
    is an object; a single entry that is not an object makes it return no
    result at all for that query.  An object without organic results gives
    no result either. *)
Theorem search_maps_organic_results
  (api_key : pyval) (provider : trace -> search_params -> result pyval)
  (query : pyval) (n : Z) (t : trace) (kv : list (string * pyval)) :
  provider t (request_for api_key query n) = Ok (PDict kv) ->
  (forall entries,
      dict_get kv "organic_results" (PList []) = PList entries ->
      fst (search api_key provider query n t)
      = Ok (if forallb is_dict entries
            then map (fun v => entry_of (entries_of v)) entries
            else []))
  /\ ((forall v, dict_get kv "organic_results" v = v) ->
      fst (search api_key provider query n t) = Ok []).
Proof.
  intro Hp. split.
  - intros entries He. rewrite search_run. cbn [fst].
    unfold results_of. rewrite Hp. cbn [rbind].
    unfold parse_payload. cbn [py_get rbind]. rewrite He. cbn [py_iter rbind].
    destruct (forallb is_dict entries) eqn:Hd.
    + now rewrite organic_loop_dicts.
    + destruct (organic_loop_not_dict entries [] Hd) as [e [-> _]].
      reflexivity.
  - intro Hmiss. rewrite search_run. cbn [fst].
    unfold results_of. rewrite Hp. cbn [rbind].
    unfold parse_payload. cbn [py_get rbind]. rewrite Hmiss. reflexivity.
Qed.

Lemma search_maps_organic_results_witness :
  provider_a_malformed [] (request_for (PStr "key") (PStr "b") 8)
  = Ok (payload [hit "B" "u"])
  /\ fst (search (PStr "key") provider_a_malformed (PStr "b") 8 [])
     = Ok [found "B" "u"].
Proof.
  split; [reflexivity |].
  apply (proj1 (search_maps_organic_results (PStr "key") provider_a_malformed
                  (PStr "b") 8 []
                  [("search_metadata", PDict []);
                   ("organic_results", PList [hit "B" "u"])] eq_refl)
           [hit "B" "u"] eq_refl).
Defined.

(** ** Stripping and the fence *)

Lemma rstrip_cons_nonspace (c : ascii) (s : string) :
  isspace c = false -> rstrip (String c s) = String c (rstrip s).
Proof. intro H. simpl. rewrite H. now destruct (rstrip s). Qed.

Lemma rstrip_app_space (s : string) (c : ascii) :
  isspace c = true -> rstrip (s ++ String c EmptyString) = rstrip s.
Proof.
  intro H. induction s as [| x s IH]; simpl.
  - now rewrite H.
  - now rewrite IH.
Qed.

Lemma rstrip_idem (s : string) : rstrip (rstrip s) = rstrip s.
Proof.
  induction s as [| c s IH]; simpl; [reflexivity |].
  destruct (rstrip s) as [| y r'] eqn:Hr.
  - destruct (isspace c) eqn:Hc; simpl; [reflexivity | now rewrite Hc].
  - change (rstrip (String c (String y r')) = String c (String y r')).
    simpl. simpl in IH. now rewrite IH.
Qed.

Lemma rstrip_empty_lstrip (s : string) :
  rstrip s = EmptyString -> lstrip s = EmptyString.
Proof.
  induction s as [| c s IH]; simpl; [reflexivity |].
  destruct (rstrip s) as [| y r']; [| discriminate].
  destruct (isspace c); [auto | discriminate].
Qed.

Lemma lstrip_rstrip_comm (s : string) : lstrip (rstrip s) = rstrip (lstrip s).
Proof.
  induction s as [| c s IH]; [reflexivity |].
  destruct (isspace c) eqn:Hc.
  - cbn [lstrip]. rewrite Hc. rewrite <- IH. cbn [rstrip].
    destruct (rstrip s) as [| y r'] eqn:Hr.
    + rewrite Hc. reflexivity.
    + cbn [lstrip]. now rewrite Hc.
  - cbn [lstrip]. rewrite Hc. rewrite (rstrip_cons_nonspace c s Hc).
    cbn [lstrip]. now rewrite Hc.
Qed.

Lemma strip_rstrip (s : string) : strip (rstrip s) = strip s.
Proof.
  unfold strip. rewrite lstrip_rstrip_comm. apply rstrip_idem.
Qed.

(** Newlines around a text do not change what [strip] returns. *)
Lemma strip_between_newlines (body : string) :
  strip (nl ++ body ++ nl)%string = strip body.
Proof.
  unfold strip, nl. cbn [append lstrip]. change (isspace "010") with true.
  cbv iota. rewrite <- lstrip_rstrip_comm.
  rewrite (rstrip_app_space body "010" eq_refl). apply lstrip_rstrip_comm.
Qed.

Lemma rstrip_app_fixed (a b : string) :
  rstrip b = b -> b <> EmptyString -> rstrip (a ++ b)%string = (a ++ b)%string.
Proof.
  intros Hb Hn. induction a as [| x a IH]; simpl; [exact Hb |].
  rewrite IH. destruct (a ++ b)%string eqn:Hab; [| reflexivity].
  destruct a; simpl in Hab; [contradiction | discriminate].
Qed.

Lemma mentions_app (c : ascii) (a b : string) :
  mentions c (a ++ b)%string = mentions c a || mentions c b.
Proof.
  induction a as [| x a IH]; simpl; [reflexivity |].
  now rewrite IH, orb_assoc.
Qed.

(** Up to the first fence, a text without backquotes is one piece. *)
Lemma split_go_no_fence (x cur rest : string) :
  mentions "`" x = false ->
  split_go "```" 0 cur (x ++ "```" ++ rest)%string
  = (cur ++ x)%string :: split_go "```" 2 EmptyString ("``" ++ rest)%string.
Proof.
  revert cur. induction x as [| c x IH]; intros cur H.
  - rewrite str_app_nil_r.
    change (split_go "```" 0 cur (EmptyString ++ "```" ++ rest)%string)
      with (if prefix "```" ("```" ++ rest)%string
            then cur :: split_go "```" 2 EmptyString ("``" ++ rest)%string
            else split_go "```" 0 (cur ++ "`")%string ("``" ++ rest)%string).
    now destruct rest.
  - simpl in H. apply orb_false_elim in H. destruct H as [Hc Hx].
    cbn [append split_go prefix].
    destruct (ascii_dec "`" c) as [E | _].
    + subst c. discriminate.
    + rewrite (IH _ Hx). now rewrite str_app_assoc.
Qed.

Lemma prefix_app (p s : string) : prefix p (p ++ s)%string = true.
Proof.
  induction p as [| c p IH]; simpl.
  - now destruct s.
  - destruct (ascii_dec c c) as [_ | N]; [exact IH | congruence].
Qed.

Lemma mentions_lstrip (c : ascii) (s : string) :
  mentions c s = false -> mentions c (lstrip s) = false.
Proof.
  induction s as [| x s IH]; simpl; [reflexivity |].
  intro H. destruct (isspace x); [| exact H].
  apply orb_false_elim in H. now apply IH.
Qed.

Lemma mentions_rstrip (c : ascii) (s : string) :
  mentions c s = false -> mentions c (rstrip s) = false.
Proof.
  induction s as [| x s IH]; simpl; [reflexivity |].
  intro H. apply orb_false_elim in H. destruct H as [Hx Hs].
  specialize (IH Hs). destruct (rstrip s) as [| y r'].
  - destruct (isspace x); simpl; [reflexivity | now rewrite Hx].
  - simpl in *. now rewrite Hx, IH.
Qed.

Lemma strip_fence_bare (body : string) :
  mentions "`" body = false -> strip_fence (strip body) = Ok (strip body).
Proof.
  intro Hb. unfold strip_fence.
  assert (startswith "```" (strip body) = false) as ->; [| reflexivity].
  pose proof (mentions_rstrip _ _ (mentions_lstrip _ _ Hb)) as Hm.
  unfold strip. destruct (rstrip (lstrip body)) as [| c r]; [reflexivity |].
  simpl in Hm. apply orb_false_elim in Hm. destruct Hm as [Hc _].
  unfold startswith. cbn [prefix].
  destruct (ascii_dec "`" c) as [E | _]; [| reflexivity].
  subst c. discriminate.
Qed.

(** The piece between the fences of a fenced reply. *)
Lemma fenced_piece (x : string) :
  mentions "`" x = false ->
  strip ("```" ++ x ++ "```")%string = ("```" ++ x ++ "```")%string
  /\ startswith "```" ("```" ++ x ++ "```")%string = true
  /\ index (split "```" ("```" ++ x ++ "```")%string) 1 = Ok x.
Proof.
  intro Hx. split; [| split].
  - unfold strip.
    change (lstrip ("```" ++ x ++ "```")%string)
      with ("```" ++ x ++ "```")%string.
    rewrite <- str_app_assoc.
    apply rstrip_app_fixed; [reflexivity | discriminate].
  - apply prefix_app.
  - unfold split.
    change ("```" ++ x ++ "```")%string
      with (EmptyString ++ "```" ++ (x ++ "```"))%string.
    rewrite (split_go_no_fence EmptyString EmptyString (x ++ "```") eq_refl).
    change (split_go "```" 2 EmptyString ("``" ++ x ++ "```")%string)
      with (split_go "```" 0 EmptyString (x ++ "```" ++ EmptyString)%string).
    rewrite (split_go_no_fence x EmptyString EmptyString Hx).
    reflexivity.
Qed.

(** X5: a reply that wraps a text without backquotes in a fence, with the
    tag [json] or, when the text does not itself start with [json], with no
    tag, is decoded as the text alone: the expander returns the same
    queries for the fenced and for the bare reply. *)
Theorem fenced_reply_as_bare
  (json_loads : string -> result pyval) (q tag body : string) :
  mentions "`" body = false ->
  tag = "json" \/ (tag = EmptyString /\ startswith "json" (strip body) = false) ->
  strip_fence (strip (fenced tag body)) = Ok (strip body)
  /\ strip_fence (strip body) = Ok (strip body)
  /\ queries_of json_loads q (Ok (fenced tag body))
     = queries_of json_loads q (Ok body).
Proof.
  intros Hb Htag.
  pose proof (strip_fence_bare body Hb) as Hbare.
  assert (strip_fence (strip (fenced tag body)) = Ok (strip body)) as Hf.
  { assert (mentions "`" (tag ++ nl ++ body ++ nl)%string = false) as Hx.
    { rewrite !mentions_app, Hb.
      destruct Htag as [-> | [-> _]]; reflexivity. }
    destruct (fenced_piece _ Hx) as [Hs [Hp Hi]].
    assert (fenced tag body
            = ("```" ++ (tag ++ nl ++ body ++ nl) ++ "```")%string) as ->.
    { unfold fenced. now rewrite !str_app_assoc. }
    rewrite Hs. unfold strip_fence. rewrite Hp, Hi. cbn [rbind].
    destruct Htag as [-> | [-> Hj]].
    - assert (strip ("json" ++ nl ++ body ++ nl)%string
              = ("json" ++ rstrip (nl ++ body ++ nl))%string) as ->.
      { unfold strip. cbn [append lstrip].
        change (isspace "j") with false. cbv iota.
        now rewrite !rstrip_cons_nonspace. }
      unfold startswith. rewrite prefix_app. cbn [append str_from].
      now rewrite strip_rstrip, strip_between_newlines.
    - cbn [append]. rewrite strip_between_newlines, Hj. reflexivity. }
  split; [exact Hf | split; [exact Hbare |]].
  unfold queries_of, decode_reply. cbn [rbind]. now rewrite Hf, Hbare.
Qed.

Lemma fenced_reply_as_bare_witness :
  mentions "`" reply_two = false
  /\ queries_of json_fragment "q" (Ok (fenced "json" reply_two))
     = PList [PStr "a"; PStr "b"].
Proof.
  split; [reflexivity |].
  rewrite (proj2 (proj2 (fenced_reply_as_bare json_fragment "q" "json"
                           reply_two eq_refl (or_introl eq_refl)))).
  reflexivity.
Defined.

(** * The helpers *)

Lemma all_chars_app (p : ascii -> bool) (a b : string) :
  all_chars p (a ++ b)%string = all_chars p a && all_chars p b.
Proof.
  induction a as [| c a IH]; simpl; [reflexivity |].
  now rewrite IH, andb_assoc.
Qed.

Lemma length_app (a b : string) :
  String.length (a ++ b)%string = String.length a + String.length b.
Proof. induction a as [| c a IH]; simpl; [reflexivity | now rewrite IH]. Qed.

Lemma join_cons (sep w : string) (ws : list string) :
  join sep (w :: ws)
  = match ws with
    | [] => w
    | _ => (w ++ sep ++ join sep ws)%string
    end.
Proof. destruct ws; reflexivity. Qed.

Lemma words_go_words (cur s : string) :
  all_chars (fun c => negb (isspace c)) cur = true ->
  Forall is_word (words_go cur s).
Proof.
  revert cur. induction s as [| c r IH]; intros cur Hc; simpl.
  - destruct cur; constructor; [| constructor]. split; [discriminate | exact Hc].
  - destruct (isspace c) eqn:Hs.
    + destruct cur.
      * now apply IH.
      * constructor; [split; [discriminate | exact Hc] | now apply IH].
    + apply IH. rewrite all_chars_app, Hc. simpl. now rewrite Hs.
Qed.

(** The characters of the joined words are spaces and characters of the
    text that are not whitespace. *)
Lemma join_words_chars (q : ascii -> bool) (cur s : string) :
  q " "%char = true ->
  all_chars (fun c => isspace c || q c) s = true ->
  all_chars q cur = true ->
  all_chars q (join " " (words_go cur s)) = true.
Proof.
  intros Hq. revert cur. induction s as [| c r IH]; intros cur Hs Hc; simpl.
  - destruct cur; [reflexivity | simpl in *; now rewrite Hc].
  - simpl in Hs. apply andb_prop in Hs. destruct Hs as [Hcq Hr].
    destruct (isspace c) eqn:Hsp.
    + destruct cur as [| x cur'].
      * now apply IH.
      * rewrite join_cons.
        specialize (IH EmptyString Hr eq_refl).
        destruct (words_go EmptyString r); [exact Hc |].
        rewrite !all_chars_app, Hc, IH. simpl. now rewrite Hq.
    + apply IH; [exact Hr |].
      rewrite all_chars_app, Hc. simpl in *. now rewrite Hcq.
Qed.

Lemma join_words_length (cur s : string) :
  String.length (join " " (words_go cur s))
  <= String.length cur + String.length s.
Proof.
  revert cur. induction s as [| c r IH]; intros cur; simpl.
  - destruct cur; simpl; lia.
  - destruct (isspace c).
    + destruct cur as [| x cur'].
      * specialize (IH EmptyString). simpl in IH. lia.
      * rewrite join_cons. specialize (IH EmptyString). simpl in IH.
        destruct (words_go EmptyString r).
        -- lia.
        -- rewrite !length_app. simpl String.length at 2. lia.
    + specialize (IH (cur ++ String c EmptyString)%string).
      rewrite length_app in IH. simpl in IH. lia.
Qed.

Lemma remove_tags_go_chars (p : ascii -> bool) (skip : nat) (s : string) :
  all_chars p s = true -> all_chars p (remove_tags_go skip s) = true.
Proof.
  revert skip. induction s as [| c r IH]; intros skip H; [reflexivity |].
  simpl in H. apply andb_prop in H. destruct H as [Hc Hr].
  cbn [remove_tags_go]. destruct skip as [| k]; [| now apply IH].
  destruct (tag_at (String c r)); [now apply IH |].
  simpl. rewrite Hc. now apply IH.
Qed.

Lemma remove_tags_go_length (skip : nat) (s : string) :
  String.length (remove_tags_go skip s) <= String.length s.
Proof.
  revert skip. induction s as [| c r IH]; intros skip; [simpl; lia |].
  cbn [remove_tags_go]. destruct skip as [| k].
  - destruct (tag_at (String c r)).
    + specialize (IH (n - 1)). simpl. lia.
    + specialize (IH 0). simpl. lia.
  - specialize (IH k). simpl. lia.
Qed.

Lemma lstrip_chars (p : ascii -> bool) (s : string) :
  all_chars p s = true -> all_chars p (lstrip s) = true.
Proof.
  induction s as [| c r IH]; simpl; [reflexivity |].
  intro H. destruct (isspace c); [| exact H].
  apply andb_prop in H. now apply IH.
Qed.

Lemma rstrip_chars (p : ascii -> bool) (s : string) :
  all_chars p s = true -> all_chars p (rstrip s) = true.
Proof.
  induction s as [| c r IH]; simpl; [reflexivity |].
  intro H. apply andb_prop in H. destruct H as [Hc Hr].
  specialize (IH Hr). destruct (rstrip r).
  - destruct (isspace c); simpl; [reflexivity | now rewrite Hc].
  - simpl in *. now rewrite Hc, IH.
Qed.

Lemma lstrip_length (s : string) : String.length (lstrip s) <= String.length s.
Proof.
  induction s as [| c r IH]; simpl; [lia |].
  destruct (isspace c); simpl; lia.
Qed.

Lemma rstrip_length (s : string) : String.length (rstrip s) <= String.length s.
Proof.
  induction s as [| c r IH]; simpl; [lia |].
  destruct (rstrip r); [destruct (isspace c) |]; simpl in *; lia.
Qed.

Lemma lstrip_idem (s : string) : lstrip (lstrip s) = lstrip s.
Proof.
  induction s as [| c r IH]; simpl; [reflexivity |].
  destruct (isspace c) eqn:Hc; [exact IH | simpl; now rewrite Hc].
Qed.

Lemma strip_idem (s : string) : strip (strip s) = strip s.
Proof.
  unfold strip. rewrite lstrip_rstrip_comm, lstrip_idem. apply rstrip_idem.
Qed.

(** X6: for every string, [clean_text] returns a text that is not longer,
    in which the only whitespace characters are plain spaces, and that
    neither starts nor ends with whitespace. *)
Theorem clean_text_normalises (s : string) :
  exists out,
    clean_text (PStr s) = Ok out
    /\ String.length out <= String.length s
    /\ all_chars plain out = true
    /\ strip out = out.
Proof.
  unfold clean_text. destruct (truthy (PStr s)); simpl negb; cbv iota.
  - eexists. split; [reflexivity |]. split; [| split].
    + unfold strip.
      pose proof (rstrip_length
                    (lstrip (remove_tags (join " " (split_ws s))))).
      pose proof (lstrip_length (remove_tags (join " " (split_ws s)))).
      pose proof (remove_tags_go_length 0 (join " " (split_ws s))).
      pose proof (join_words_length EmptyString s).
      unfold remove_tags, split_ws in *. simpl in *. lia.
    + unfold strip. apply rstrip_chars, lstrip_chars, remove_tags_go_chars.
      apply join_words_chars; try reflexivity.
      clear. induction s as [| c r IH]; simpl; [reflexivity |].
      rewrite IH. unfold plain. now destruct (isspace c).
    + apply strip_idem.
  - exists EmptyString. repeat split. simpl. lia.
Qed.

Lemma word_head (w : string) :
  is_word w -> exists c r, w = String c r /\ isspace c = false.
Proof.
  intros [Hn Hw]. destruct w as [| c r]; [contradiction |].
  simpl in Hw. apply andb_prop in Hw. destruct Hw as [Hc _].
  exists c, r. split; [reflexivity | now destruct (isspace c)].
Qed.

Lemma rstrip_word (w : string) :
  all_chars (fun c => negb (isspace c)) w = true -> rstrip w = w.
Proof.
  induction w as [| c r IH]; [reflexivity |].
  simpl all_chars. intro H. apply andb_prop in H. destruct H as [Hc Hr].
  rewrite rstrip_cons_nonspace; [now rewrite IH | now destruct (isspace c)].
Qed.

Lemma join_words_nonempty (w : string) (ws : list string) :
  is_word w -> join " " (w :: ws) <> EmptyString.
Proof.
  intro Hw. destruct (word_head w Hw) as [c [r [-> _]]].
  rewrite join_cons. destruct ws; discriminate.
Qed.

(** Joined words neither start nor end with whitespace. *)
Lemma strip_join_words (ws : list string) :
  Forall is_word ws -> strip (join " " ws) = join " " ws.
Proof.
  intro H. unfold strip.
  assert (lstrip (join " " ws) = join " " ws) as ->.
  { destruct H as [| w ws Hw _]; [reflexivity |].
    destruct (word_head w Hw) as [c [r [-> Hc]]].
    rewrite join_cons. destruct ws; simpl; now rewrite Hc. }
  induction H as [| w ws Hw Hws IH]; [reflexivity |].
  rewrite join_cons. destruct Hws as [| w2 ws2 Hw2 Hws2].
  - apply rstrip_word. apply Hw.
  - rewrite <- str_app_assoc. apply rstrip_app_fixed; [exact IH |].
    now apply join_words_nonempty.
Qed.

Lemma words_go_word (cur w rest : string) :
  all_chars (fun c => negb (isspace c)) w = true ->
  words_go cur (w ++ rest)%string = words_go (cur ++ w)%string rest.
Proof.
  revert cur. induction w as [| c r IH]; intros cur H.
  - now rewrite str_app_nil_r.
  - simpl in H. apply andb_prop in H. destruct H as [Hc Hr].
    cbn [append words_go].
    assert (isspace c = false) as -> by now destruct (isspace c).
    rewrite (IH _ Hr). now rewrite str_app_assoc.
Qed.

(** Splitting joined words gives the words back. *)
Lemma split_join_words (ws : list string) :
  Forall is_word ws -> split_ws (join " " ws) = ws.
Proof.
  unfold split_ws. induction 1 as [| w ws Hw Hws IH]; [reflexivity |].
  rewrite join_cons. destruct (word_head w Hw) as [c [r [Ew _]]].
  destruct Hws as [| w2 ws2 Hw2 Hws2].
  - rewrite <- (str_app_nil_r w) at 1.
    rewrite (words_go_word EmptyString w EmptyString (proj2 Hw)).
    simpl. now rewrite Ew.
  - rewrite (words_go_word EmptyString w _ (proj2 Hw)).
    cbn [append words_go]. change (isspace " ") with true. cbv iota.
    rewrite IH. now rewrite Ew.
Qed.

Lemma no_tag_at (s : string) : mentions "<" s = false -> tag_at s = None.
Proof.
  destruct s as [| c0 [| c1 r]]; try reflexivity.
  simpl. intro H. apply orb_false_elim in H. destruct H as [H0 _].
  now rewrite H0.
Qed.

Lemma remove_tags_none (s : string) :
  mentions "<" s = false -> remove_tags s = s.
Proof.
  unfold remove_tags. induction s as [| c r IH]; [reflexivity |].
  intro H. cbn [remove_tags_go]. rewrite (no_tag_at _ H).
  simpl in H. apply orb_false_elim in H. destruct H as [_ Hr].
  now rewrite (IH Hr).
Qed.

Lemma mentions_all_chars (c : ascii) (s : string) :
  mentions c s = false <-> all_chars (fun x => negb (Ascii.eqb x c)) s = true.
Proof.
  induction s as [| x r IH]; simpl; [tauto |].
  destruct (Ascii.eqb x c); simpl; [split; discriminate | exact IH].
Qed.

(** X7: on a text without [<], [clean_text] returns the words of the text
    joined by single spaces; splitting that again gives the same words, and
    cleaning it again changes nothing. *)
Theorem clean_text_without_tags (s : string) :
  mentions "<" s = false ->
  clean_text (PStr s) = Ok (join " " (split_ws s))
  /\ split_ws (join " " (split_ws s)) = split_ws s
  /\ clean_text (PStr (join " " (split_ws s))) = Ok (join " " (split_ws s)).
Proof.
  intro H.
  pose proof (words_go_words EmptyString s eq_refl) as Hw.
  fold (split_ws s) in Hw.
  assert (mentions "<" (join " " (split_ws s)) = false) as Hj.
  { apply mentions_all_chars. apply join_words_chars; try reflexivity.
    apply mentions_all_chars in H. clear Hw.
    induction s as [| c r IH]; simpl in *; [reflexivity |].
    apply andb_prop in H. destruct H as [Hc Hr].
    rewrite Hc, (IH Hr). now rewrite orb_true_r. }
  assert (forall x, mentions "<" x = false ->
            clean_text (PStr x) = Ok (join " " (split_ws x))) as Hclean.
  { intros x Hx.
    pose proof (words_go_words EmptyString x eq_refl) as Hwx.
    fold (split_ws x) in Hwx.
    assert (mentions "<" (join " " (split_ws x)) = false) as Hjx.
    { apply mentions_all_chars. apply join_words_chars; try reflexivity.
      apply mentions_all_chars in Hx. clear Hwx.
      induction x as [| c r IH]; simpl in *; [reflexivity |].
      apply andb_prop in Hx. destruct Hx as [Hc Hr].
      rewrite Hc, (IH Hr). now rewrite orb_true_r. }
    unfold clean_text. destruct x as [| c r]; [reflexivity |].
    cbn [truthy String.length Nat.eqb negb].
    now rewrite (remove_tags_none _ Hjx), (strip_join_words _ Hwx). }
  split; [now apply Hclean | split].
  - now apply split_join_words.
  - rewrite (Hclean _ Hj). now rewrite (split_join_words _ Hw).
Qed.

Lemma clean_text_without_tags_witness :
  mentions "<" ("  two   words " ++ nl)%string = false
  /\ clean_text (PStr ("  two   words " ++ nl)%string) = Ok "two words".
Proof.
  split; [reflexivity |].
  rewrite (proj1 (clean_text_without_tags ("  two   words " ++ nl)%string
                    eq_refl)).
  reflexivity.
Defined.

Lemma clean_text_cleanable (v : pyval) :
  clean_text v
  = if cleanable v then Ok (cleaned v) else Raise (no_attribute v "split").
Proof.
  unfold cleaned, cleanable, clean_text.
  destruct v as [| b | z | s | l | kv]; simpl;
    try reflexivity.
  - now destruct b.
  - now destruct (z =? 0)%Z.
  - now destruct (String.length s =? 0)%nat.
  - now destruct (List.length l =? 0)%nat.
  - now destruct (List.length kv =? 0)%nat.
Qed.

Lemma format_source_result (r : SearchResult) :
  format_source (result_dict r)
  = if cleanable (title r)
    then if cleanable (snippet r)
         then Ok (mkFormatted (cleaned (title r)) (link r)
                    (cleaned (snippet r)) (source r) (date r))
         else Raise (no_attribute (snippet r) "split")
    else Raise (no_attribute (title r) "split").
Proof.
  unfold format_source, result_dict. cbn [py_get dict_get String.eqb
    Ascii.eqb Bool.eqb rbind].
  rewrite (clean_text_cleanable (title r)).
  destruct (cleanable (title r)); [| reflexivity]. cbn [rbind].
  rewrite (clean_text_cleanable (snippet r)).
  destruct (cleanable (snippet r)); reflexivity.
Qed.

Lemma format_loop_results (rs : list SearchResult) (acc : list FormattedSource) :
  forallb (fun r => cleanable (title r) && cleanable (snippet r)) rs = true ->
  format_loop (map result_dict rs) acc
  = Ok (acc ++ map (fun r => mkFormatted (cleaned (title r)) (link r)
                                (cleaned (snippet r)) (source r) (date r))
                  rs).
Proof.
  revert acc. induction rs as [| r rest IH]; intros acc H.
  - simpl. now rewrite app_nil_r.
  - cbn [map format_loop forallb] in *. rewrite format_source_result.
    apply andb_prop in H. destruct H as [Hr Hrest].
    apply andb_prop in Hr. destruct Hr as [-> ->].
    cbn [rbind]. rewrite (IH _ Hrest). now rewrite <- app_assoc.
Qed.

Lemma format_loop_refuses (rs : list SearchResult) (acc : list FormattedSource) :
  forallb (fun r => cleanable (title r) && cleanable (snippet r)) rs = false ->
  exists e, format_loop (map result_dict rs) acc = Raise e
            /\ exn_cls e = AttributeError.
Proof.
  revert acc. induction rs as [| r rest IH]; intros acc H.
  - discriminate.
  - cbn [map format_loop forallb] in *. rewrite format_source_result.
    destruct (cleanable (title r)); [| eexists; split; reflexivity].
    destruct (cleanable (snippet r)); [| eexists; split; reflexivity].
    cbn [rbind andb] in *. now apply IH.
Qed.

(** X8: given the sources of an outcome, [format_sources] returns one entry
    per source, in order, with the link as url, the source as domain, the
    date, and the cleaned title and snippet, provided every title and
    snippet is a string or false; one title or snippet that is a true
    value of another type makes it raise and format nothing. *)
Theorem format_sources_of_results (rs : list SearchResult) :
  (forallb (fun r => cleanable (title r) && cleanable (snippet r)) rs = true ->
   format_sources (PList (map result_dict rs))
   = Ok (map (fun r => mkFormatted (cleaned (title r)) (link r)
                         (cleaned (snippet r)) (source r) (date r)) rs))
  /\ (forallb (fun r => cleanable (title r) && cleanable (snippet r)) rs = false ->
      exists e, format_sources (PList (map result_dict rs)) = Raise e
                /\ exn_cls e = AttributeError).
Proof.
  unfold format_sources. cbn [py_iter rbind]. split; intro H.
  - now rewrite format_loop_results.
  - now apply format_loop_refuses.
Qed.

Lemma format_sources_of_results_witness :
  format_sources (PList (map result_dict demo_unique))
  = Ok [mkFormatted "A" (PStr "u1") "No description available"
          (PStr EmptyString) (PStr EmptyString);
        mkFormatted "B" (PStr "u2") "No description available"
          (PStr EmptyString) (PStr EmptyString);
        mkFormatted "C" (PStr "u3") "No description available"
          (PStr EmptyString) (PStr EmptyString)].
Proof.
  rewrite (proj1 (format_sources_of_results demo_unique) eq_refl).
  reflexivity.
Defined.

(** * The pattern of [validate_email] *)

Lemma str_app_empty (a b : string) :
  (a ++ b)%string = EmptyString -> a = EmptyString /\ b = EmptyString.
Proof. destruct a; simpl; [auto | discriminate]. Qed.

Lemma nullable_lang (r : regex) : nullable r = true <-> lang r EmptyString.
Proof.
  induction r as [| | p | a IHa b IHb | a IHa b IHb | a IHa]; simpl.
  - split; [discriminate | contradiction].
  - tauto.
  - split; [discriminate | intros [c [H _]]; discriminate].
  - rewrite andb_true_iff, IHa, IHb. split.
    + intros [Ha Hb]. exists EmptyString, EmptyString. auto.
    + intros [s1 [s2 [E [Ha Hb]]]]. symmetry in E.
      apply str_app_empty in E. destruct E as [-> ->]. auto.
  - rewrite orb_true_iff, IHa, IHb. tauto.
  - split; [intros _; constructor | reflexivity].
Qed.

Lemma star_of_cons (P : string -> Prop) (c : ascii) (s : string) :
  star_of P (String c s) ->
  exists s1 s2, s = (s1 ++ s2)%string /\ P (String c s1) /\ star_of P s2.
Proof.
  intro H. remember (String c s) as w eqn:E.
  destruct H as [| s1 s2 H1 Hn H2]; [discriminate |].
  destruct s1 as [| x s1]; [contradiction |].
  simpl in E. inversion E; subst. eauto.
Qed.

Lemma deriv_lang (r : regex) (c : ascii) (s : string) :
  lang (deriv c r) s <-> lang r (String c s).
Proof.
  revert s. induction r as [| | p | a IHa b IHb | a IHa b IHb | a IHa];
    intros s; simpl.
  - tauto.
  - split; [contradiction | discriminate].
  - destruct (p c) eqn:Hp; simpl.
    + split.
      * intros ->. eauto.
      * intros [x [E _]]. now inversion E.
    + split; [contradiction |].
      intros [x [E Hx]]. inversion E; subst. congruence.
  - assert (lang (RCat (deriv c a) b) s
            <-> exists s1 s2, s = (s1 ++ s2)%string
                              /\ lang a (String c s1) /\ lang b s2) as Hcat.
    { simpl. split; intros [s1 [s2 [E [Ha Hb]]]]; exists s1, s2;
        (split; [exact E | split; [now apply IHa | exact Hb]]). }
    assert ((exists s1 s2, String c s = (s1 ++ s2)%string
                           /\ lang a s1 /\ lang b s2)
            <-> (exists s1 s2, s = (s1 ++ s2)%string
                               /\ lang a (String c s1) /\ lang b s2)
                \/ (lang a EmptyString /\ lang b (String c s))) as Hsplit.
    { split.
      - intros [[| x s1] [s2 [E [Ha Hb]]]]; simpl in E.
        + right. subst s2. auto.
        + left. inversion E; subst. eauto.
      - intros [[s1 [s2 [E [Ha Hb]]]] | [Ha Hb]].
        + exists (String c s1), s2. subst. auto.
        + exists EmptyString, (String c s). auto. }
    rewrite Hsplit. destruct (nullable a) eqn:Hn.
    + change (lang (RCat (deriv c a) b) s \/ lang (deriv c b) s
              <-> (exists s1 s2, s = (s1 ++ s2)%string
                                 /\ lang a (String c s1) /\ lang b s2)
                  \/ (lang a EmptyString /\ lang b (String c s))).
      rewrite Hcat, IHb. apply nullable_lang in Hn. tauto.
    + rewrite Hcat. split; [tauto |].
      intros [H | [Ha _]]; [exact H |].
      apply nullable_lang in Ha. congruence.
  - rewrite IHa, IHb. tauto.
  - split.
    + intros [s1 [s2 [E [Ha Hs]]]]. subst s.
      change (star_of (lang a) (String c s1 ++ s2)%string).
      constructor; [now apply IHa | discriminate | exact Hs].
    + intro H. apply star_of_cons in H.
      destruct H as [s1 [s2 [E [Ha Hs]]]].
      exists s1, s2. split; [exact E | split; [now apply IHa | exact Hs]].
Qed.

(** The matcher decides the language of the pattern. *)
Lemma matches_lang (r : regex) (s : string) : matches r s = true <-> lang r s.
Proof.
  revert r. induction s as [| c s IH]; intros r; simpl.
  - apply nullable_lang.
  - rewrite IH. apply deriv_lang.
Qed.

Lemma star_class (p : ascii -> bool) (s : string) :
  star_of (lang (RClass p)) s <-> all_chars p s = true.
Proof.
  split.
  - induction 1 as [| s1 s2 [c [-> Hc]] _ _ IH]; [reflexivity |].
    simpl. now rewrite Hc, IH.
  - induction s as [| c s IH]; simpl; intro H; [constructor |].
    apply andb_prop in H. destruct H as [Hc Hs].
    change (star_of (lang (RClass p)) (String c EmptyString ++ s)%string).
    constructor; [simpl; eauto | discriminate | now apply IH].
Qed.

Lemma plus_class (p : ascii -> bool) (s : string) :
  lang (rplus (RClass p)) s <-> s <> EmptyString /\ all_chars p s = true.
Proof.
  unfold rplus. cbn [lang]. split.
  - intros [s1 [s2 [-> [[c [-> Hc]] Hs]]]]. apply star_class in Hs.
    split; [discriminate | simpl; now rewrite Hc, Hs].
  - intros [Hn H]. destruct s as [| c s]; [contradiction |].
    simpl in H. apply andb_prop in H. destruct H as [Hc Hs].
    exists (String c EmptyString), s.
    split; [reflexivity | split; [eauto | now apply star_class]].
Qed.

Lemma lang_email_pattern (s : string) :
  lang email_pattern s <-> exists l d t, address s l d t.
Proof.
  unfold email_pattern, address.
  change (lang (RCat ?a ?b) s)
    with (exists s1 s2, s = (s1 ++ s2)%string /\ lang a s1 /\ lang b s2).
  split.
  - intros [l [r1 [-> [Hl H1]]]]. apply plus_class in Hl.
    destruct H1 as [at_ [r2 [-> [[c1 [-> Hc1]] H2]]]].
    destruct H2 as [d [r3 [-> [Hd H3]]]]. apply plus_class in Hd.
    destruct H3 as [dot [r4 [-> [[c2 [-> Hc2]] H4]]]].
    destruct H4 as [t1 [r5 [-> [[x1 [-> Hx1]] H5]]]].
    destruct H5 as [t2 [t3 [-> [[x2 [-> Hx2]] H6]]]].
    apply star_class in H6.
    unfold is_char in Hc1, Hc2.
    apply Ascii.eqb_eq in Hc1, Hc2. subst c1 c2.
    exists l, d, (String x1 (String x2 t3)).
    destruct Hl as [Hl1 Hl2]. destruct Hd as [Hd1 Hd2].
    repeat split; auto.
    + simpl. lia.
    + simpl. now rewrite Hx1, Hx2, H6.
  - intros [l [d [t [-> [Hl1 [Hl2 [Hd1 [Hd2 [Ht1 Ht2]]]]]]]]].
    destruct t as [| x1 [| x2 t3]]; simpl in Ht1; try lia.
    simpl in Ht2. apply andb_prop in Ht2. destruct Ht2 as [Hx1 Ht2].
    apply andb_prop in Ht2. destruct Ht2 as [Hx2 Ht3].
    exists l, ("@" ++ d ++ "." ++ String x1 (String x2 t3))%string.
    split; [reflexivity | split; [now apply plus_class |]].
    exists "@"%string, (d ++ "." ++ String x1 (String x2 t3))%string.
    split; [reflexivity | split; [exists "@"%char; auto |]].
    exists d, ("." ++ String x1 (String x2 t3))%string.
    split; [reflexivity | split; [now apply plus_class |]].
    exists "."%string, (String x1 (String x2 t3)).
    split; [reflexivity | split; [exists "."%char; auto |]].
    exists (String x1 EmptyString), (String x2 t3).
    split; [reflexivity | split; [simpl; eauto |]].
    exists (String x2 EmptyString), t3.
    split; [reflexivity | split; [simpl; eauto | now apply star_class]].
Qed.

(** What [validate_email] accepts, read off the language of its pattern. *)
Lemma validate_email_parts (s : string) :
  validate_email s = true
  <-> exists body e l d t,
        s = (body ++ e)%string
        /\ (e = EmptyString \/ e = nl)
        /\ address body l d t.
Proof.
  unfold validate_email. rewrite matches_lang.
  change (lang (RCat email_pattern at_end) s)
    with (exists s1 s2, s = (s1 ++ s2)%string
                        /\ lang email_pattern s1 /\ lang at_end s2).
  split.
  - intros [body [e [-> [Hb He]]]]. apply lang_email_pattern in Hb.
    destruct Hb as [l [d [t Ha]]]. exists body, e, l, d, t.
    split; [reflexivity | split; [| exact Ha]].
    destruct He as [-> | [c [-> Hc]]]; [now left | right].
    unfold is_char in Hc. apply Ascii.eqb_eq in Hc. now subst c.
  - intros [body [e [l [d [t [-> [He Ha]]]]]]]. exists body, e.
    split; [reflexivity | split; [apply lang_email_pattern; eauto |]].
    destruct He as [-> | ->]; [now left | right].
    exists "010"%char. split; reflexivity.
Qed.

(** X9: [validate_email] accepts exactly the strings made of a non-empty
    local part of letters, digits and [._%+-], an [@], a non-empty domain of
    letters, digits, dots and hyphens, a dot and two or more letters, with
    or without one newline after them. *)
Theorem validate_email_accepts (s : string) :
  validate_email s = true
  <-> exists body e l d t,
        s = (body ++ e)%string
        /\ (e = EmptyString \/ e = nl)
        /\ address body l d t.
Proof.
  split; intro H.
  - now apply validate_email_parts in H.
  - now apply validate_email_parts.
Qed.

Lemma validate_email_accepts_witness :
  validate_email "ada@example.org" = true.
Proof.
  apply (proj2 (validate_email_accepts "ada@example.org")).
  exists "ada@example.org"%string, EmptyString, "ada"%string,
    "example"%string, "org"%string.
  split; [reflexivity | split; [now left |]].
  unfold address. repeat split; try discriminate; simpl; lia.
Defined.

Lemma count_char_app (c : ascii) (a b : string) :
  count_char c (a ++ b)%string = count_char c a + count_char c b.
Proof. induction a as [| x a IH]; simpl; [reflexivity | rewrite IH; lia]. Qed.

Lemma count_char_class (p : ascii -> bool) (c : ascii) (s : string) :
  all_chars p s = true -> p c = false -> count_char c s = 0.
Proof.
  intros H Hc. induction s as [| x s IH]; simpl in *; [reflexivity |].
  apply andb_prop in H. destruct H as [Hx Hs].
  destruct (Ascii.eqb x c) eqn:E.
  - apply Ascii.eqb_eq in E. subst x. congruence.
  - now rewrite IH.
Qed.

Lemma all_chars_impl (p q : ascii -> bool) (s : string) :
  (forall c, p c = true -> q c = true) ->
  all_chars p s = true -> all_chars q s = true.
Proof.
  intros Hpq. induction s as [| x s IH]; simpl; [reflexivity |].
  intro H. apply andb_prop in H. destruct H as [Hx Hs].
  now rewrite (Hpq _ Hx), IH.
Qed.

(** No character of the three classes is whitespace. *)
Lemma class_not_space (c : ascii) :
  local_char c || domain_char c || letter c = true -> isspace c = false.
Proof.
  destruct c as [[] [] [] [] [] [] [] []]; vm_compute;
    intro H; try reflexivity; discriminate H.
Qed.

Lemma last_char_app (a : string) (c : ascii) :
  last_char (a ++ String c EmptyString)%string = Some c.
Proof.
  induction a as [| x a IH]; [reflexivity |].
  cbn [append last_char]. rewrite IH.
  destruct (a ++ String c EmptyString)%string eqn:E; [| reflexivity].
  destruct a; discriminate.
Qed.

Lemma last_char_app_r (a b : string) :
  b <> EmptyString -> last_char (a ++ b)%string = last_char b.
Proof.
  intro Hb. induction a as [| x a IH]; [reflexivity |].
  cbn [append last_char]. rewrite IH.
  destruct (a ++ b)%string eqn:E; [| reflexivity].
  apply str_app_empty in E. destruct E as [_ E]. contradiction.
Qed.

Lemma last_char_class (p : ascii -> bool) (s : string) (c : ascii) :
  all_chars p s = true -> last_char s = Some c -> p c = true.
Proof.
  induction s as [| x s IH]; [discriminate |].
  cbn [all_chars last_char]. intros H Hl.
  apply andb_prop in H. destruct H as [Hx Hs].
  destruct s as [| y s2]; [inversion Hl; now subst | now apply IH].
Qed.

Lemma str_app_inj_tail (a b : string) (c : ascii) :
  (a ++ String c EmptyString)%string = (b ++ String c EmptyString)%string ->
  a = b.
Proof.
  revert b. induction a as [| x a IH]; intros [| y b] H; simpl in H.
  - reflexivity.
  - inversion H as [[E1 E2]]. destruct b; discriminate.
  - inversion H as [[E1 E2]]. destruct a; discriminate.
  - inversion H; subst. f_equal. now apply IH.
Qed.

(** An address ends with a letter. *)
Lemma address_last (s l d t : string) :
  address s l d t -> exists c, last_char s = Some c /\ letter c = true.
Proof.
  intros [-> [_ [_ [_ [_ [Ht1 Ht2]]]]]].
  assert (t <> EmptyString) as Hn
    by (destruct t; [simpl in Ht1; lia | discriminate]).
  assert (last_char (l ++ "@" ++ d ++ "." ++ t)%string = last_char t) as ->.
  { rewrite last_char_app_r; [| destruct l; discriminate].
    rewrite (last_char_app_r "@"); [| destruct d; discriminate].
    rewrite last_char_app_r; [| discriminate].
    now rewrite (last_char_app_r "."). }
  destruct (last_char t) as [c |] eqn:E.
  - exists c. split; [reflexivity | now apply (last_char_class letter t)].
  - exfalso. clear Ht1 Ht2. induction t as [| x t IH]; [contradiction |].
    cbn [last_char] in E. destruct t; [discriminate |].
    apply IH; [discriminate | exact E].
Qed.

(** X10: an address [validate_email] accepts holds exactly one [@] and no
    whitespace other than a newline at its very end; and the address with a
    newline added is accepted exactly when the address is accepted and does
    not end with a newline already. *)
Theorem validate_email_shape (s : string) :
  (validate_email s = true ->
   count_char "@" s = 1
   /\ exists body e,
        s = (body ++ e)%string /\ (e = EmptyString \/ e = nl)
        /\ all_chars (fun c => negb (isspace c)) body = true)
  /\ (validate_email (s ++ nl) = true
      <-> validate_email s = true /\ last_char s <> Some "010"%char).
Proof.
  split.
  - intro H. apply validate_email_parts in H.
    destruct H as [body [e [l [d [t [-> [He Ha]]]]]]].
    destruct Ha as [-> [_ [Hl [_ [Hd [_ Ht]]]]]].
    split.
    + rewrite !count_char_app.
      rewrite (count_char_class _ "@" l Hl eq_refl).
      rewrite (count_char_class _ "@" d Hd eq_refl).
      rewrite (count_char_class _ "@" t Ht eq_refl).
      destruct He as [-> | ->]; reflexivity.
    + exists (l ++ "@" ++ d ++ "." ++ t)%string, e.
      split; [reflexivity | split; [exact He |]].
      assert (forall p x, (forall c, p c = true ->
                 local_char c || domain_char c || letter c = true) ->
                 all_chars p x = true ->
                 all_chars (fun c => negb (isspace c)) x = true) as Hns.
      { intros p x Hp. apply all_chars_impl. intros c Hc.
        now rewrite (class_not_space c (Hp c Hc)). }
      rewrite !all_chars_app.
      rewrite (Hns local_char l), (Hns domain_char d), (Hns letter t); auto.
      * intros c ->. now rewrite !orb_true_r.
      * intros c ->. now rewrite orb_true_r.
      * intros c ->. reflexivity.
  - split.
    + intro H. apply validate_email_parts in H.
      destruct H as [body [e [l [d [t [E [He Ha]]]]]]].
      destruct (address_last _ _ _ _ Ha) as [c [Hc Hlet]].
      destruct He as [-> | ->].
      * rewrite str_app_nil_r in E. subst body.
        unfold nl in Hc. rewrite last_char_app in Hc.
        inversion Hc; subst c. discriminate Hlet.
      * apply str_app_inj_tail in E. subst body. split.
        -- apply validate_email_parts.
           exists s, EmptyString, l, d, t.
           rewrite str_app_nil_r. auto.
        -- rewrite Hc. intro Hx. inversion Hx; subst c. discriminate Hlet.
    + intros [H Hlast]. apply validate_email_parts in H.
      destruct H as [body [e [l [d [t [E [He Ha]]]]]]].
      destruct He as [-> | ->].
      * rewrite str_app_nil_r in E. subst body.
        apply validate_email_parts. exists s, nl, l, d, t. auto.
      * exfalso. apply Hlast. subst s. apply last_char_app.
Qed.

Lemma validate_email_shape_witness :
  validate_email "ada@example.org" = true
  /\ count_char "@" "ada@example.org" = 1
  /\ validate_email ("ada@example.org" ++ nl)%string = true.
Proof.
  assert (validate_email "ada@example.org" = true) as H by reflexivity.
  split; [exact H |]. split.
  - exact (proj1 (proj1 (validate_email_shape "ada@example.org") H)).
  - apply (proj2 (validate_email_shape "ada@example.org")).
    split; [exact H | discriminate].
Defined.

(** * The route that runs the research *)

Section RouteFacts.

Variable api_key : pyval.
Variable model : trace -> string -> result string.
Variable provider : trace -> search_params -> result pyval.
Variable json_loads : string -> result pyval.
Variable py_repr : pyval -> string.
Variable current_user_id : pyval.
Variable find_user : list db_event -> result bool.
Variable get_json : result pyval.
Variable new_agent : result unit.
Variable commit : list db_event -> result pyval.

Local Abbreviation run :=
  (research_query api_key model provider json_loads py_repr).
Local Abbreviation route_steps :=
  (search_query_steps api_key model provider json_loads py_repr
     current_user_id find_user get_json new_agent commit).
Local Abbreviation route :=
  (search_query api_key model provider json_loads py_repr
     current_user_id find_user get_json new_agent commit).

Lemma run_returns (q : string) (t : trace) :
  exists outcome t', run q t = (Ok outcome, t').
Proof.
  destruct (run_cases api_key model provider json_loads py_repr q t)
    as [qs [evs H]]. cbv zeta in H.
  destruct H as [_ [_ [[e [_ [_ Hr]]] | [u [_ [Hs Hr]]]]]].
  - eauto.
  - rewrite Hr, Hs. eauto.
Qed.

(** What the body of the [try] of the route does, case by case. *)
Lemma steps_cases (st : site) :
  match find_user (snd st) with
  | Raise e => route_steps st = (Raise e, st)
  | Ok false => route_steps st = (Ok (ErrorBody "User not found", 404), st)
  | Ok true =>
      match query_of_request get_json with
      | Raise e => route_steps st = (Raise e, st)
      | Ok EmptyString =>
          route_steps st = (Ok (ErrorBody "Query is required", 400), st)
      | Ok query =>
          match new_agent with
          | Raise e => route_steps st = (Raise e, st)
          | Ok _ =>
              exists outcome t',
                run query (fst st) = (Ok outcome, t')
                /\ let row := mkChat current_user_id query (response outcome)
                                (sources outcome) in
                   match commit (snd st ++ [DbAdd (ChatRow row)]) with
                   | Ok chat_id =>
                       route_steps st
                       = (Ok (ResearchBody (response outcome)
                                (sources outcome) query chat_id, 200),
                          (t', snd st ++ [DbAdd (ChatRow row); DbCommit]))
                   | Raise e =>
                       route_steps st
                       = (Raise e,
                          (t', snd st ++ [DbAdd (ChatRow row); DbCommit]))
                   end
          end
      end
  end.
Proof.
  destruct st as [t log]. unfold search_query_steps,
    query_of_request, r_bind, r_lift, r_ret, r_services, r_db. cbn [fst snd].
  destruct (find_user log) as [[|] | e]; cbn [negb]; try reflexivity.
  destruct get_json as [data | e]; cbn [rbind]; try reflexivity.
  destruct (py_get data "query" (PStr EmptyString)) as [raw | e];
    cbn [rbind]; try reflexivity.
  destruct (py_strip raw) as [query | e]; try reflexivity.
  destruct query as [| c query]; [reflexivity |].
  cbn [String.length Nat.eqb].
  destruct new_agent as [[] | e]; try reflexivity.
  destruct (run_returns (String c query) t) as [outcome [t' Hr]].
  exists outcome, t'. split; [exact Hr |]. cbv zeta. cbn [fst snd].
  rewrite Hr. cbn [fst snd].
  destruct (commit _) as [chat_id | e]; cbn [fst snd];
    rewrite <- ?app_assoc; reflexivity.
Qed.

(** What the route does, case by case. *)
Lemma route_cases (st : site) :
  match find_user (snd st) with
  | Raise e => route st = ((ErrorBody (exn_msg e), 500),
                           (fst st, snd st ++ [DbRollback]))
  | Ok false => route st = ((ErrorBody "User not found", 404), st)
  | Ok true =>
      match query_of_request get_json with
      | Raise e => route st = ((ErrorBody (exn_msg e), 500),
                               (fst st, snd st ++ [DbRollback]))
      | Ok EmptyString => route st = ((ErrorBody "Query is required", 400), st)
      | Ok query =>
          match new_agent with
          | Raise e => route st = ((ErrorBody (exn_msg e), 500),
                                   (fst st, snd st ++ [DbRollback]))
          | Ok _ =>
              exists outcome t',
                run query (fst st) = (Ok outcome, t')
                /\ let row := mkChat current_user_id query (response outcome)
                                (sources outcome) in
                   match commit (snd st ++ [DbAdd (ChatRow row)]) with
                   | Ok chat_id =>
                       route st
                       = ((ResearchBody (response outcome) (sources outcome)
                             query chat_id, 200),
                          (t', snd st ++ [DbAdd (ChatRow row); DbCommit]))
                   | Raise e =>
                       route st
                       = ((ErrorBody (exn_msg e), 500),
                          (t', snd st ++ [DbAdd (ChatRow row); DbCommit; DbRollback]))
                   end
          end
      end
  end.
Proof.
  destruct st as [t log]. unfold search_query, search_query_steps,
    query_of_request, r_bind, r_lift, r_ret, r_services, r_db. cbn [fst snd].
  destruct (find_user log) as [[|] | e]; cbn [negb]; try reflexivity.
  destruct get_json as [data | e]; cbn [rbind]; try reflexivity.
  destruct (py_get data "query" (PStr EmptyString)) as [raw | e];
    cbn [rbind]; try reflexivity.
  destruct (py_strip raw) as [query | e]; try reflexivity.
  destruct query as [| c query]; [reflexivity |].
  cbn [String.length Nat.eqb].
  destruct new_agent as [[] | e]; try reflexivity.
  destruct (run_returns (String c query) t) as [outcome [t' Hr]].
  exists outcome, t'. split; [exact Hr |]. cbv zeta. cbn [fst snd].
  rewrite Hr. cbn [fst snd].
  destruct (commit _) as [chat_id | e]; cbn [fst snd];
    rewrite <- ?app_assoc; reflexivity.
Qed.

Lemma strip_blank (s : string) : all_chars isspace s = true -> strip s = EmptyString.
Proof.
  intro H. unfold strip.
  assert (lstrip s = EmptyString) as ->; [| reflexivity].
  induction s as [| c s IH]; [reflexivity |].
  simpl in *. apply andb_prop in H. destruct H as [-> Hs]. now apply IH.
Qed.

Lemma py_strip_stripped (v : pyval) (q : string) :
  py_strip v = Ok q -> strip q = q.
Proof.
  destruct v; simpl; intro H; inversion H. apply strip_idem.
Qed.

Lemma query_stripped (q : string) :
  query_of_request get_json = Ok q -> strip q = q.
Proof.
  unfold query_of_request, rbind.
  destruct get_json as [data |]; [| discriminate].
  destruct (py_get data "query" (PStr EmptyString)) as [raw |];
    [| discriminate].
  apply py_strip_stripped.
Qed.

(** X11: a request the route answers with 404 or 400 makes no call of the
    model or of the provider, and nothing is added to the session,
    committed or rolled back: the trace of the services and the record of
    those calls are left as they were.  The one access to the database
    before these answers is the lookup of the user, whose answer is taken
    as given and leaves no entry in that record.  404 is the answer when
    the lookup finds no user, and only then; 400 when it finds one and the
    query, stripped, is empty, and only then. *)
Theorem rejected_requests_add_nothing (st : site) :
  (snd (fst (route st)) = 404 \/ snd (fst (route st)) = 400 ->
   snd (route st) = st)
  /\ (find_user (snd st) = Ok false ->
      route st = ((ErrorBody "User not found", 404), st))
  /\ (find_user (snd st) = Ok true ->
      query_of_request get_json = Ok EmptyString ->
      route st = ((ErrorBody "Query is required", 400), st))
  /\ (forall kv raw,
        get_json = Ok (PDict kv) ->
        dict_get kv "query" (PStr EmptyString) = PStr raw ->
        all_chars isspace raw = true ->
        query_of_request get_json = Ok EmptyString)
  /\ (snd (fst (route st)) = 404 -> find_user (snd st) = Ok false)
  /\ (snd (fst (route st)) = 400 ->
      find_user (snd st) = Ok true
      /\ query_of_request get_json = Ok EmptyString).
Proof.
  pose proof (route_cases st) as H.
  split; [| split; [| split; [| split; [| split]]]].
  4: { intros kv raw Hj Hq Hb. unfold query_of_request.
       rewrite Hj. cbn [rbind py_get]. rewrite Hq. cbn [py_strip].
       now rewrite (strip_blank raw Hb). }
  - destruct (find_user (snd st)) as [[|] | e].
    + destruct (query_of_request get_json) as [[| c q] | e].
      * rewrite H. reflexivity.
      * destruct new_agent as [[] | e].
        -- destruct H as [outcome [t' [_ H]]]. cbv zeta in H.
           destruct (commit _); rewrite H; cbn [fst snd];
             intros [E | E]; discriminate E.
        -- rewrite H. cbn [fst snd]. intros [E | E]; discriminate E.
      * rewrite H. cbn [fst snd]. intros [E | E]; discriminate E.
    + rewrite H. reflexivity.
    + rewrite H. cbn [fst snd]. intros [E | E]; discriminate E.
  - intro Hu. rewrite Hu in H. exact H.
  - intros Hu Hq. rewrite Hu, Hq in H. exact H.
  - destruct (find_user (snd st)) as [[|] | e]; [| reflexivity |].
    + destruct (query_of_request get_json) as [[| c q] | e].
      * rewrite H. discriminate.
      * destruct new_agent as [[] | e].
        -- destruct H as [outcome [t' [_ H]]]. cbv zeta in H.
           destruct (commit _); rewrite H; discriminate.
        -- rewrite H. discriminate.
      * rewrite H. discriminate.
    + rewrite H. discriminate.
  - destruct (find_user (snd st)) as [[|] | e].
    + destruct (query_of_request get_json) as [[| c q] | e].
      * auto.
      * destruct new_agent as [[] | e].
        -- destruct H as [outcome [t' [_ H]]]. cbv zeta in H.
           destruct (commit _); rewrite H; discriminate.
        -- rewrite H. discriminate.
      * rewrite H. discriminate.
    + rewrite H. discriminate.
    + rewrite H. discriminate.
Qed.

(** X12: an answer with status 200 carries the answer and the sources of
    [research_query] run on the stripped query of the request, which is not
    empty; the services were called as that run calls them, and one chat
    with the user, that query, that answer and those sources was added to
    the session and committed. *)
Theorem research_reply (st st' : site) (body : reply_body) :
  route st = ((body, 200), st') ->
  exists query outcome chat_id,
    query_of_request get_json = Ok query
    /\ query <> EmptyString
    /\ strip query = query
    /\ run query (fst st) = (Ok outcome, fst st')
    /\ body = ResearchBody (response outcome) (sources outcome) query chat_id
    /\ snd st'
       = snd st ++ [DbAdd (ChatRow (mkChat current_user_id query (response outcome)
                             (sources outcome)));
                    DbCommit].
Proof.
  intro Hr. pose proof (route_cases st) as H.
  destruct (find_user (snd st)) as [[|] | e];
    try (rewrite H in Hr; discriminate Hr).
  destruct (query_of_request get_json) as [[| c q] | e] eqn:Hq;
    try (rewrite H in Hr; discriminate Hr).
  destruct new_agent as [[] | e]; try (rewrite H in Hr; discriminate Hr).
  destruct H as [outcome [t' [Hrun H]]]. cbv zeta in H.
  destruct (commit _) as [chat_id | e];
    rewrite H in Hr; [| discriminate Hr].
  inversion Hr; subst. exists (String c q), outcome, chat_id.
  repeat split; auto; [discriminate | now apply query_stripped].
Qed.

(** X13: the status of the route's answer is 200, 400, 404 or 500.  It is
    500 exactly when the body of the [try] raises; the exception is then
    the one raised by the lookup of the user, by reading the query of the
    request, by the constructor of the agent or by the commit of the chat,
    never by [research_query]; the body of the answer holds the text of
    that exception, and the rollback is the last call on the session,
    after what the [try] had done. *)
Theorem route_statuses (st : site) :
  In (snd (fst (route st))) [200; 400; 404; 500]
  /\ (snd (fst (route st)) = 500 ->
      exists e st1,
        route_steps st = (Raise e, st1)
        /\ route st = ((ErrorBody (exn_msg e), 500),
                       (fst st1, snd st1 ++ [DbRollback]))
        /\ (find_user (snd st) = Raise e
            \/ (find_user (snd st) = Ok true
                /\ query_of_request get_json = Raise e)
            \/ (find_user (snd st) = Ok true
                /\ (exists query, query_of_request get_json = Ok query
                                  /\ query <> EmptyString)
                /\ new_agent = Raise e)
            \/ (exists query outcome t',
                  find_user (snd st) = Ok true
                  /\ query_of_request get_json = Ok query
                  /\ new_agent = Ok tt
                  /\ run query (fst st) = (Ok outcome, t')
                  /\ commit (snd st
                             ++ [DbAdd (ChatRow
                                          (mkChat current_user_id query
                                             (response outcome)
                                             (sources outcome)))])
                     = Raise e
                  /\ st1 = (t', snd st
                                ++ [DbAdd (ChatRow
                                             (mkChat current_user_id query
                                                (response outcome)
                                                (sources outcome)));
                                    DbCommit]))))
  /\ (forall e st1, route_steps st = (Raise e, st1) ->
        route st = ((ErrorBody (exn_msg e), 500),
                    (fst st1, snd st1 ++ [DbRollback]))).
Proof.
  assert (forall e st1, route_steps st = (Raise e, st1) ->
            route st = ((ErrorBody (exn_msg e), 500),
                        (fst st1, snd st1 ++ [DbRollback]))) as Hraise.
  { intros e st1 Hs. unfold search_query. rewrite Hs. reflexivity. }
  assert (forall reply st1, route_steps st = (Ok reply, st1) ->
            route st = (reply, st1)) as Hreturn.
  { intros reply st1 Hs. unfold search_query. rewrite Hs. reflexivity. }
  pose proof (steps_cases st) as H.
  split; [| split; [| exact Hraise]];
    destruct (find_user (snd st)) as [[|] | e] eqn:Hu.
  - destruct (query_of_request get_json) as [[| c q] | e].
    + rewrite (Hreturn _ _ H). simpl; tauto.
    + destruct new_agent as [[] | e].
      * destruct H as [outcome [t' [_ H]]]. cbv zeta in H.
        destruct (commit _) as [chat_id | e].
        -- rewrite (Hreturn _ _ H). simpl; tauto.
        -- rewrite (Hraise _ _ H). simpl; tauto.
      * rewrite (Hraise _ _ H). simpl; tauto.
    + rewrite (Hraise _ _ H). simpl; tauto.
  - rewrite (Hreturn _ _ H). simpl; tauto.
  - rewrite (Hraise _ _ H). simpl; tauto.
  - destruct (query_of_request get_json) as [[| c q] | e] eqn:Hq.
    + rewrite (Hreturn _ _ H). discriminate.
    + destruct new_agent as [[] | e] eqn:Ha.
      * destruct H as [outcome [t' [Hrun H]]]. cbv zeta in H.
        destruct (commit _) as [chat_id | e] eqn:Hc.
        -- rewrite (Hreturn _ _ H). discriminate.
        -- intros _. exists e. eexists. split; [exact H |].
           split; [exact (Hraise _ _ H) |].
           right. right. right. exists (String c q), outcome, t'.
           repeat split; auto.
      * intros _. exists e, st. split; [exact H |].
        split; [exact (Hraise _ _ H) |].
        right. right. left. split; [reflexivity | split; [| reflexivity]].
        exists (String c q). split; [reflexivity | discriminate].
    + intros _. exists e, st. split; [exact H |].
      split; [exact (Hraise _ _ H) |]. right. left. auto.
  - rewrite (Hreturn _ _ H). discriminate.
  - intros _. exists e, st. split; [exact H |].
    split; [exact (Hraise _ _ H) |]. left. reflexivity.
Qed.

End RouteFacts.

(** A request whose query is blank. *)
Lemma rejected_requests_add_nothing_witness :
  query_of_request (request_with (PStr "   ")) = Ok EmptyString
  /\ demo_route (Ok true) (request_with (PStr "   ")) ([], [])
     = ((ErrorBody "Query is required", 400), ([], [])).
Proof.
  assert (query_of_request (request_with (PStr "   ")) = Ok EmptyString) as H
    by reflexivity.
  split; [exact H |].
  exact (proj1 (proj2 (proj2
           (rejected_requests_add_nothing (PStr "key") model_down
              provider_down json_fragment repr_elided (PInt 7)
              (fun _ => Ok true) (request_with (PStr "   ")) (Ok tt)
              (fun _ => Ok (PInt 1)) ([], []))))
           eq_refl H).
Defined.

(** A request whose query has spaces around it. *)
Lemma research_reply_witness :
  snd (fst (demo_route (Ok true) (request_with (PStr "  q ")) ([], []))) = 200
  /\ exists query outcome chat_id,
       query_of_request (request_with (PStr "  q ")) = Ok query
       /\ query <> EmptyString
       /\ strip query = query
       /\ research_query (PStr "key") model_down provider_down json_fragment
            repr_elided query []
          = (Ok outcome,
             fst (snd (demo_route (Ok true) (request_with (PStr "  q "))
                         ([], []))))
       /\ fst (fst (demo_route (Ok true) (request_with (PStr "  q ")) ([], [])))
          = ResearchBody (response outcome) (sources outcome) query chat_id
       /\ snd (snd (demo_route (Ok true) (request_with (PStr "  q ")) ([], [])))
          = [] ++ [DbAdd (ChatRow (mkChat (PInt 7) query (response outcome)
                            (sources outcome)));
                   DbCommit].
Proof.
  split; [reflexivity |].
  apply (research_reply (PStr "key") model_down provider_down json_fragment
           repr_elided (PInt 7) (fun _ => Ok true)
           (request_with (PStr "  q ")) (Ok tt) (fun _ => Ok (PInt 1))
           ([], [])).
  vm_compute. reflexivity.
Defined.

(** A request whose query is a number: [strip] is asked of an [int]. *)
Lemma route_statuses_witness :
  snd (fst (demo_route (Ok true) (request_with (PInt 3)) ([], []))) = 500
  /\ demo_route (Ok true) (request_with (PInt 3)) ([], [])
     = ((ErrorBody "'int' object has no attribute 'strip'", 500),
        ([], [DbRollback])).
Proof.
  assert (snd (fst (demo_route (Ok true) (request_with (PInt 3)) ([], [])))
          = 500) as H by reflexivity.
  split; [exact H |].
  destruct (proj1 (proj2 (route_statuses (PStr "key") model_down provider_down
                            json_fragment repr_elided (PInt 7)
                            (fun _ => Ok true) (request_with (PInt 3)) (Ok tt)
                            (fun _ => Ok (PInt 1)) ([], []))) H)
    as [e [st1 [Hs [Hr _]]]].
  vm_compute in Hs. inversion Hs; subst.
  unfold demo_route. rewrite Hr. reflexivity.
Defined.

(** * The route that registers a user *)

Section RegisterFacts.

Variable get_json : result pyval.
Variable username_taken : pyval -> list db_event -> result bool.
Variable email_taken : pyval -> list db_event -> result bool.
Variable generate_password_hash : pyval -> result string.
Variable commit : list db_event -> result stored_user.
Variable create_access_token : pyval -> result string.
Variable created_at : result string.

Local Abbreviation signup :=
  (register get_json username_taken email_taken generate_password_hash
     commit create_access_token created_at).

Ltac reduce_steps := cbv beta iota zeta; cbn [fst snd negb py_get].


(** X14: [register] answers 201 only for a request that is an object with a
    true username, an email that is a string [validate_email] accepts, and
    a password of length 6 or more, when neither the username nor the email
    was found; then one user with that username, that email and the hash of
    that password was added to the session and committed, and nothing else
    was done on the session.  The answer holds the token made for the id
    of the stored user, and that id, the username and the email as they
    are read back after the commit, which need not be the request's. *)
Theorem register_creates_only_valid_users (st st' : site)
  (body : register_body) :
  signup st = ((body, 201), st') ->
  exists kv email hash user token stamp n,
    get_json = Ok (PDict kv)
    /\ truthy (dict_get kv "username" PNone) = true
    /\ dict_get kv "email" PNone = PStr email
    /\ validate_email email = true
    /\ py_len_of (dict_get kv "password" PNone) = Ok n /\ 6 <= n
    /\ username_taken (dict_get kv "username" PNone) (snd st) = Ok false
    /\ email_taken (PStr email) (snd st) = Ok false
    /\ generate_password_hash (dict_get kv "password" PNone) = Ok hash
    /\ commit (snd st
               ++ [DbAdd (UserRow (mkUser (dict_get kv "username" PNone)
                                     (PStr email) hash))])
       = Ok user
    /\ create_access_token (stored_id user) = Ok token
    /\ created_at = Ok stamp
    /\ body = Registered token (stored_id user) (stored_username user)
                (stored_email user) stamp
    /\ st' = (fst st,
              snd st ++ [DbAdd (UserRow (mkUser (dict_get kv "username" PNone)
                                           (PStr email) hash));
                         DbCommit]).
Proof.
  destruct st as [t log].
  unfold register, register_steps, r_bind, r_lift, r_ret, r_db.
  reduce_steps.
  destruct get_json as [data | e] eqn:Hj; reduce_steps; [| discriminate].
  destruct data as [| b | z | s | l | kv]; reduce_steps; try discriminate.
  destruct (truthy (dict_get kv "username" PNone)) eqn:Hu; reduce_steps;
    [| discriminate].
  destruct (truthy (dict_get kv "email" PNone)) eqn:He; reduce_steps;
    [| discriminate].
  destruct (truthy (dict_get kv "password" PNone)) eqn:Hp; reduce_steps;
    [| discriminate].
  destruct (py_len_of (dict_get kv "password" PNone)) as [n | e] eqn:Hn;
    reduce_steps; [| discriminate].
  destruct (n <? 6)%nat eqn:H6; reduce_steps; [discriminate |].
  destruct (validate_email_of (dict_get kv "email" PNone)) as [valid | e]
    eqn:Hv; reduce_steps; [| discriminate].
  destruct valid; reduce_steps; [| discriminate].
  destruct (username_taken (dict_get kv "username" PNone) log)
    as [[|] | e] eqn:Hut; reduce_steps; try discriminate.
  destruct (email_taken (dict_get kv "email" PNone) log)
    as [[|] | e] eqn:Het; reduce_steps; try discriminate.
  destruct (generate_password_hash (dict_get kv "password" PNone))
    as [hash | e] eqn:Hh; reduce_steps; [| discriminate].
  destruct (commit _) as [user | e] eqn:Hc; reduce_steps; [| discriminate].
  destruct (create_access_token (stored_id user)) as [token | e] eqn:Ht;
    reduce_steps; [| discriminate].
  destruct created_at as [stamp | e] eqn:Hs; reduce_steps; [| discriminate].
  intro H. inversion H; subst. clear H.
  destruct (dict_get kv "email" PNone) as [| | | email | |] eqn:Hem;
    try discriminate Hv.
  simpl in Hv. injection Hv as Hv'.
  exists kv, email, hash, user, token, stamp, n.
  rewrite <- app_assoc.
  apply Nat.ltb_ge in H6.
  repeat split; auto.
Qed.


End RegisterFacts.

(** A request with a number as username, a valid email and a password of
    eight characters, on a site without users whose database gives the
    username back as a string. *)
Lemma register_creates_only_valid_users_witness :
  register
    (Ok (PDict [("username", PInt 5); ("email", PStr "ada@example.org");
                ("password", PStr "s3cret!!")]))
    (fun _ _ => Ok false) (fun _ _ => Ok false) (fun _ => Ok "hash"%string)
    (fun _ => Ok (mkStored (PInt 1) (PStr "5") (PStr "ada@example.org")))
    (fun _ => Ok "token"%string) (Ok "2024-01-01T00:00:00"%string) ([], [])
  = ((Registered "token" (PInt 1) (PStr "5") (PStr "ada@example.org")
        "2024-01-01T00:00:00", 201),
     ([], [DbAdd (UserRow (mkUser (PInt 5) (PStr "ada@example.org") "hash"));
           DbCommit]))
  /\ exists kv email hash user token stamp n,
       Ok (PDict [("username", PInt 5); ("email", PStr "ada@example.org");
                  ("password", PStr "s3cret!!")]) = Ok (PDict kv)
       /\ truthy (dict_get kv "username" PNone) = true
       /\ dict_get kv "email" PNone = PStr email
       /\ validate_email email = true
       /\ py_len_of (dict_get kv "password" PNone) = Ok n /\ 6 <= n
       /\ Ok false = Ok false
       /\ Ok false = Ok false
       /\ Ok "hash"%string = Ok hash
       /\ Ok (mkStored (PInt 1) (PStr "5") (PStr "ada@example.org")) = Ok user
       /\ Ok "token"%string = Ok token
       /\ Ok "2024-01-01T00:00:00"%string = Ok stamp
       /\ Registered "token" (PInt 1) (PStr "5") (PStr "ada@example.org")
            "2024-01-01T00:00:00"
          = Registered token (stored_id user) (stored_username user)
              (stored_email user) stamp
       /\ (@nil event,
           [DbAdd (UserRow (mkUser (PInt 5) (PStr "ada@example.org") "hash"));
            DbCommit])
          = (@nil event,
             [] ++ [DbAdd (UserRow (mkUser (dict_get kv "username" PNone)
                                      (PStr email) hash));
                    DbCommit]).
Proof.
  split; [reflexivity |].
  apply (register_creates_only_valid_users
           (Ok (PDict [("username", PInt 5);
                       ("email", PStr "ada@example.org");
                       ("password", PStr "s3cret!!")]))
           (fun _ _ => Ok false) (fun _ _ => Ok false)
           (fun _ => Ok "hash"%string)
           (fun _ => Ok (mkStored (PInt 1) (PStr "5") (PStr "ada@example.org")))
           (fun _ => Ok "token"%string) (Ok "2024-01-01T00:00:00"%string)
           ([], [])).
  reflexivity.
Defined.


(** * The pipeline without the model *)

(** X16: when every call of the model fails, [research_query] searches the
    user's query itself, once, and returns what that search found, without
    duplicates and cut to 15, with the fallback answer and the user's query
    as the only query used, whatever the provider answers; a link that
    cannot be hashed gives the apology instead. *)
Theorem research_without_model
  (api_key : pyval) (model : trace -> string -> result string)
  (provider : trace -> search_params -> result pyval)
  (json_loads : string -> result pyval) (py_repr : pyval -> string)
  (q : string) (t : trace) :
  (forall t0 prompt, exists e, model t0 prompt = Raise e) ->
  let results :=
    results_of
      (provider (t ++ [Generate (expansion_prompt q)])
         (request_for api_key (PStr q) 8)) in
  fst (research_query api_key model provider json_loads py_repr q t)
  = Ok match deduplicate results with
       | Ok unique =>
           mkOutcome (synthesis_fallback q) (limit 15 unique) (PList [PStr q])
       | Raise e => mkOutcome (apology e) [] (PList [PStr q])
       end.
Proof.
  intros Hm results.
  destruct (steps_run api_key model provider json_loads py_repr q t)
    as [qs [evs H]]. cbv zeta in H.
  destruct H as [Hit [_ [_ [_ [_ Hs]]]]].
  rewrite run_steps, Hs. clear Hs.
  destruct (Hm t (expansion_prompt q)) as [e He]. rewrite He in *.
  unfold queries_of, decode_reply in *. cbn [rbind py_iter] in *.
  inversion Hit; subst qs. clear Hit.
  cbn [per_query_results]. rewrite search_run. cbn [concat].
  rewrite app_nil_r. fold results.
  destruct (deduplicate results) as [u | e']; cbn [fst]; [| reflexivity].
  unfold answer_of.
  destruct (Hm ((t ++ [Generate (expansion_prompt q)]) ++ evs)
              (synthesis_prompt py_repr q (limit 15 u))) as [e2 ->].
  reflexivity.
Qed.

Lemma research_without_model_witness :
  (forall t0 prompt, exists e, model_down t0 prompt = Raise e)
  /\ fst (research_demo model_down
            (provider_table [("q", Ok (payload [hit "A" "u1"; hit "A2" "u1"]))])
            "q")
     = Ok (mkOutcome (synthesis_fallback "q") [found "A" "u1"]
             (PList [PStr "q"])).
Proof.
  assert (forall t0 prompt, exists e, model_down t0 prompt = Raise e) as Hm
    by (intros; eexists; reflexivity).
  split; [exact Hm |].
  unfold research_demo.
  rewrite (research_without_model (PStr "key") model_down
             (provider_table
                [("q", Ok (payload [hit "A" "u1"; hit "A2" "u1"]))])
             json_fragment repr_elided "q" [] Hm).
  reflexivity.
Defined.
